(** * The pix2pix map-synthesis driver of pytorch_bayesian_unet

    A shallow embedding of [examples/map_synthesis/train_and_test_pix2pix.py].
    The driver is configuration and call sequencing: it parses arguments,
    builds configuration objects, and calls into the model library
    (pytorch_bcnn), the trainer framework (pytorch_trainer), numpy and
    matplotlib.  The embedding keeps that shape:

    - Python values the driver computes with (integers, floats compared with
      [max], strings, paths) are computed here too ([Module Py]);
    - configuration objects are records;
    - calls that act on the outside world are recorded, in program order, in
      a trace of events carried by a writer-and-exception monad;
    - what the outside world answers (files of a data set, arrays, the
      validation loss seen by early stopping) is a parameter. *)

From Stdlib Require Import ZArith List String Ascii Bool Lia.
From Stdlib Require Import Floats.SpecFloat.
From Stdlib Require Import DecimalString DecimalZ.
Import ListNotations.

Set Warnings "-register-all".

Local Open Scope string_scope.
Local Open Scope Z_scope.

(** ** Python values and built-ins used by the driver *)

Module Py.

(** A Python number as argparse hands it to the driver: [type=float]
    converts what the user typed, while a default that is not a string is
    kept as written, so [--decay] is the int -1 unless given. *)
Inductive num : Type :=
| NInt (z : Z)
| NFloat (f : spec_float).

(** Exact comparison of an int with a binary64 float, as Python does it
    (no rounding of the int).  [None] is "unordered" (a NaN operand). *)
Definition Z_compare_float (z : Z) (f : spec_float) : option comparison :=
  match f with
  | S754_nan => None
  | S754_zero _ => Some (z ?= 0)
  | S754_infinity s => Some (if s then Gt else Lt)
  | S754_finite s m e =>
      let v := if s then Z.neg m else Z.pos m in
      if 0 <=? e then Some (z ?= v * 2 ^ e)
      else Some (z * 2 ^ (- e) ?= v)
  end.

Definition num_compare (a b : num) : option comparison :=
  match a, b with
  | NInt x, NInt y => Some (x ?= y)
  | NInt x, NFloat g => Z_compare_float x g
  | NFloat f, NInt y => option_map CompOpp (Z_compare_float y f)
  | NFloat f, NFloat g => SFcompare f g
  end.

(** [a > b] and [a < b]; both are False when a NaN is involved. *)
Definition num_gt (a b : num) : bool :=
  match num_compare a b with Some Gt => true | _ => false end.

Definition num_lt (a b : num) : bool :=
  match num_compare a b with Some Lt => true | _ => false end.

(** [a <= b], False when a NaN is involved. *)
Definition num_le (a b : num) : bool :=
  match num_compare a b with Some Lt | Some Eq => true | _ => false end.

(** The built-in [max(a, b)]: the first argument is kept unless the second
    compares strictly greater. *)
Definition max (a b : num) : num := if num_gt b a then b else a.

(** [max] on two ints. *)
Definition maxZ (a b : Z) : Z := if b >? a then b else a.

(** [a // b] on ints, for a divisor that is not zero: both round to
    minus infinity. *)
Definition floordiv (a b : Z) : Z := a / b.

(** [str(n)] for an int. *)
Definition str (n : Z) : string := NilZero.string_of_int (Z.to_int n).

Fixpoint zeros (n : nat) : string :=
  match n with
  | O => ""
  | S k => String "0" (zeros k)
  end.

(** ['%0<w>d' % n] and [format(n, '0<w>')]: zero padding to width [w], the
    sign counted in the width. *)
Definition zero_padded (w : nat) (n : Z) : string :=
  if n <? 0 then
    let d := str (- n) in "-" ++ zeros (w - 1 - String.length d) ++ d
  else
    let d := str n in zeros (w - String.length d) ++ d.

Fixpoint endswith_slash (s : string) : bool :=
  match s with
  | "" => false
  | String c "" => Ascii.eqb c "/"
  | String _ r => endswith_slash r
  end.

(** [str.startswith]. *)
Definition startswith (s p : string) : bool := String.prefix p s.

(** [os.path.join(a, b)] of posixpath. *)
Definition path_join (a b : string) : string :=
  if startswith b "/" then b
  else if (String.length a =? 0)%nat || endswith_slash a then a ++ b
  else a ++ "/" ++ b.

Fixpoint has_slash (s : string) : bool :=
  match s with
  | "" => false
  | String c r => Ascii.eqb c "/" || has_slash r
  end.

(** [s.split('/')[-1]]: what follows the last slash. *)
Fixpoint last_component (s : string) : string :=
  match s with
  | "" => ""
  | String c r =>
      if Ascii.eqb c "/" || has_slash r then last_component r else s
  end.

(** [range(n)]. *)
Definition range (n : Z) : list Z := map Z.of_nat (seq 0 (Z.to_nat n)).

(** [enumerate(l)]. *)
Definition enumerate {A : Type} (l : list A) : list (Z * A) :=
  combine (range (Z.of_nat (List.length l))) l.

End Py.

(** ** Command-line arguments

    The namespace returned by [parser.parse_args()].  Flags declared with
    [type=float] hold a [Py.num]: a float when given on the command line,
    the default as written otherwise. *)

Module Args.

Record t : Type := mk {
  data_root : string;
  batchsize : Z;
  iteration : Z;
  frequency : Z;
  gpu : string;
  out : string;
  resume : string;
  valid_augment : bool;
  valid_split_ratio : Py.num;
  lr : Py.num;
  alpha : Py.num;
  beta : Py.num;
  decay : Py.num;
  mc_iteration : Z;
  pinfall : Z;
  freeze_upconv : bool;
  test_on_test : bool;
  test_on_valid : bool;
  seed : Z
}.

(** The binary64 values of the float literals of the parser. *)
Definition f_0_1 : spec_float := S754_finite false 7205759403792794 (-56).
Definition f_4e_4 : spec_float := S754_finite false 7378697629483821 (-64).
Definition f_50 : spec_float := S754_finite false 7036874417766400 (-47).
Definition f_0_5 : spec_float := S754_finite false 4503599627370496 (-53).

(** The defaults declared by [add_argument]. *)
Definition default : t := {|
  data_root := "./preprocessed";
  batchsize := 5;
  iteration := 200000;
  frequency := -1;
  gpu := "cuda:0";
  out := "logs";
  resume := "";
  valid_augment := false;
  valid_split_ratio := Py.NFloat f_0_1;
  lr := Py.NFloat f_4e_4;
  alpha := Py.NFloat f_50;
  beta := Py.NFloat f_0_5;
  decay := Py.NInt (-1);
  mc_iteration := 15;
  pinfall := -1;
  freeze_upconv := false;
  test_on_test := false;
  test_on_valid := false;
  seed := 0
|}.

End Args.

(** ** Configuration objects *)

(** Values of the keyword dictionaries handed to the network constructors. *)
Inductive pyval : Type :=
| VNone
| VBool (b : bool)
| VInt (z : Z)
| VFloat (f : spec_float)
| VStr (s : string)
| VList (l : list pyval)
| VDict (d : list (string * pyval)).

Definition kwargs : Type := list (string * pyval).

(** A network is described by its class and the keyword arguments of the
    constructor call; the architecture itself belongs to the model library. *)
Record Network : Type := {
  net_class : string;
  net_kwargs : kwargs
}.

Definition f_0_02 : spec_float := S754_finite false 5764607523034235 (-58).
Definition f_0_999 : spec_float := S754_finite false 8998192055486251 (-53).

Definition initialW_normal : pyval :=
  VDict [("name", VStr "normal"); ("std", VFloat f_0_02)].

Definition build_discriminator : Network :=
  let conv_param := VDict [
    ("name", VStr "conv");
    ("kernel_size", VInt 4);
    ("stride", VInt 2);
    ("padding", VInt 2);
    ("padding_mode", VStr "zeros");
    ("initialW", initialW_normal);
    ("initial_bias", VDict [("name", VStr "zero")]);
    ("hook", VDict [("name", VStr "spectral_normalization")])] in
  let pool_param := VDict [("name", VStr "none")] in
  let norm_param := VNone in
  let activation_param := VDict [("name", VStr "leaky_relu")] in
  let dropout_param := VDict [("name", VStr "none")] in
  {| net_class := "PatchDiscriminator";
     net_kwargs := [
       ("ndim", VInt 2);
       ("in_channels", VInt (3 * 2));
       ("out_channels", VInt 1);
       ("nlayer", VInt 4);
       ("nfilter", VInt 64);
       ("ninner", VInt 1);
       ("conv_param", conv_param);
       ("pool_param", pool_param);
       ("norm_param", norm_param);
       ("activation_param", activation_param);
       ("dropout_param", dropout_param);
       ("preserve_color", VBool true)] |}.

Definition build_generator : Network :=
  let conv_param := VDict [
    ("name", VStr "conv");
    ("kernel_size", VInt 4);
    ("stride", VInt 1);
    ("padding", VInt 2);
    ("padding_mode", VStr "reflect");
    ("initialW", initialW_normal);
    ("bias", VBool false)] in
  let pool_param := VDict [("name", VStr "stride"); ("stride", VInt 2)] in
  let upconv_param := VDict [
    ("name", VStr "deconv");
    ("kernel_size", VInt 4);
    ("stride", VInt 2);
    ("padding", VInt 0);
    ("padding_mode", VStr "zeros");
    ("initialW", initialW_normal);
    ("bias", VBool false)] in
  let norm_param := VDict [("name", VStr "batch")] in
  let activation_param := VDict [("name", VStr "leaky_relu")] in
  let exp_activation_param := VDict [("name", VStr "relu")] in
  let dropout_param := VDict [("name", VStr "none")] in
  let exp_dropout_param := VDict [("name", VStr "mc_dropout")] in
  {| net_class := "BayesianUNet";
     net_kwargs := [
       ("ndim", VInt 2);
       ("in_channels", VInt 3);
       ("out_channels", VInt 3);
       ("nlayer", VInt 8);
       ("nfilter", VList (map VInt [64; 128; 256; 512; 512; 512; 512; 512]));
       ("ninner", VInt 1);
       ("conv_param", conv_param);
       ("pool_param", pool_param);
       ("upconv_param", upconv_param);
       ("norm_param", norm_param);
       ("activation_param", activation_param);
       ("dropout_param", dropout_param);
       ("dropout_enables",
          VList (map VBool [false; false; false; false; true; true; true; false]));
       ("preserve_color", VBool true);
       ("exp_ninner", VInt 0);
       ("exp_activation_param", exp_activation_param);
       ("exp_dropout_param", exp_dropout_param)] |}.

(** *** Normalizer and augmentor *)

(** The operations the driver imports from [pytorch_bcnn.data.normalizer]. *)
Inductive norm_op : Type :=
| Clip2D (lo hi : Py.num)
| Subtract2D (value : Py.num)
| Divide2D (value : Py.num).

(** Modelled from the spec: the [Normalizer] class of
    [pytorch_bcnn.data.normalizer] is not part of the driver.  The spec
    describes normalization as operations applied to a loaded sample
    ("optionally normalized (channel-wise subtraction)"), so a normalizer is
    the sequence of its operations and [add] appends one. *)
Definition Normalizer : Type := list norm_op.
Definition Normalizer_new : Normalizer := [].
Definition Normalizer_add (n : Normalizer) (op : norm_op) : Normalizer :=
  (n ++ [op])%list.

(** The operations the driver imports from [pytorch_bcnn.data.augmentor]. *)
Inductive aug_op : Type :=
| Flip2D (axis : Z)
| Affine2D
| ResizeCrop2D (resize_size crop_size : Z * Z).

(** Modelled from the spec: the [DataAugmentor] class of
    [pytorch_bcnn.data.augmentor] is not part of the driver.  The spec lists
    augmentation as a pipeline ("augmented (resize-crop, flips)"), so an
    augmentor is the sequence of its operations and [add] appends one. *)
Definition DataAugmentor : Type := list aug_op.
Definition DataAugmentor_new : DataAugmentor := [].
Definition DataAugmentor_add (a : DataAugmentor) (op : aug_op) : DataAugmentor :=
  (a ++ [op])%list.

Definition get_normalizer : Normalizer :=
  let normalizer := Normalizer_new in
  let normalizer := Normalizer_add normalizer (Subtract2D (Py.NFloat (S754_zero false))) in
  normalizer.

Definition get_augmentor : DataAugmentor :=
  let augmentor := DataAugmentor_new in
  let augmentor := DataAugmentor_add augmentor (ResizeCrop2D (286, 286) (256, 256)) in
  let augmentor := DataAugmentor_add augmentor (Flip2D 1) in
  let augmentor := DataAugmentor_add augmentor (Flip2D 2) in
  augmentor.

(** *** Data sets *)

(** Which samples of the matched files a data set object holds:
    everything, or one side of [train_valid_split]. *)
Inductive part : Type :=
| Whole
| TrainPart (valid_ratio : Py.num)
| ValidPart (valid_ratio : Py.num).

(** An [ImageDataset] object: the constructor arguments, the part of the
    files it holds, and the [augmentor] attribute, which [del] clears. *)
Record Dataset : Type := {
  ds_root : string;
  ds_patients : list string;
  ds_classes : option (list string);
  ds_dtypes : list (string * string);
  ds_filenames : list (string * string);
  ds_normalizer : option Normalizer;
  ds_augmentor : option DataAugmentor;
  ds_part : part
}.

Definition ImageDataset (root : string) (patients : list string)
    (classes : option (list string)) (dtypes filenames : list (string * string))
    (normalizer : option Normalizer) (augmentor : option DataAugmentor) : Dataset :=
  {| ds_root := root; ds_patients := patients; ds_classes := classes;
     ds_dtypes := dtypes; ds_filenames := filenames;
     ds_normalizer := normalizer; ds_augmentor := augmentor;
     ds_part := Whole |}.

Definition with_part (d : Dataset) (p : part) : Dataset :=
  {| ds_root := ds_root d; ds_patients := ds_patients d;
     ds_classes := ds_classes d; ds_dtypes := ds_dtypes d;
     ds_filenames := ds_filenames d; ds_normalizer := ds_normalizer d;
     ds_augmentor := ds_augmentor d; ds_part := p |}.

(** Modelled from the spec: [train_valid_split] of [pytorch_bcnn.datasets]
    is not part of the driver.  It returns two data set objects of their
    own, the training part and the validation part of the given data set,
    each with the normalizer and augmentor of the original. *)
Definition train_valid_split (d : Dataset) (valid_ratio : Py.num)
    : Dataset * Dataset :=
  (with_part d (TrainPart valid_ratio), with_part d (ValidPart valid_ratio)).

(** Modelled from the spec: [del d.augmentor] on an [ImageDataset] of
    [pytorch_bcnn.datasets], which is not part of the driver.  The data set
    no longer augments its samples ("optionally ... augmented"). *)
Definition del_augmentor (d : Dataset) : Dataset :=
  {| ds_root := ds_root d; ds_patients := ds_patients d;
     ds_classes := ds_classes d; ds_dtypes := ds_dtypes d;
     ds_filenames := ds_filenames d; ds_normalizer := ds_normalizer d;
     ds_augmentor := None; ds_part := ds_part d |}.

Definition get_dataset (data_root : string) (valid_split_ratio : Py.num)
    (valid_augment : bool) (normalizer : option Normalizer)
    (augmentor : option DataAugmentor) : Dataset * Dataset * Dataset :=
  let class_list : option (list string) := None in
  let dtypes := [("image", "float32"); ("label", "float32")] in
  let getter := fun patients filenames augmentor =>
    ImageDataset data_root patients class_list dtypes filenames normalizer augmentor in
  let train_patients := ["*"] in
  let train_filenames := [
    ("image", "{root}/train/{patient}_a.mha");
    ("label", "{root}/train/{patient}_b.mha")] in
  let dataset := getter train_patients train_filenames augmentor in
  let '(train, valid) := train_valid_split dataset valid_split_ratio in
  let valid := if negb valid_augment then del_augmentor valid else valid in
  let test_patients := ["*"] in
  let test_filenames := [
    ("image", "{root}/val/{patient}_a.mha");
    ("label", "{root}/val/{patient}_b.mha")] in
  let test := getter test_patients test_filenames None in
  (train, valid, test).

(** ** Objects of the trainer framework and of the model library

    Each record keeps the arguments of the constructor call that the driver
    writes; what the objects do with them is the framework's business. *)

(** A trigger as the driver writes it: [(period, unit)]. *)
Definition trigger : Type := (Z * string)%type.

(** The functions of torch and numpy that the driver passes around. *)
Inductive torch_fn : Type :=
| torch_tanh
| l1_loss
| mean_dim (dim : Z)
| identity.

Record SerialIterator : Type := {
  it_dataset : Dataset;
  it_batch_size : Z;
  it_repeat : option bool;
  it_shuffle : option bool
}.

Record Regressor : Type := {
  reg_predictor : Network;
  reg_activation : torch_fn;
  reg_lossfun : torch_fn;
  reg_accfun : torch_fn
}.

Record MCSampler : Type := {
  mcs_predictor : Network;
  mcs_mc_iteration : Z;
  mcs_activation : option torch_fn;
  mcs_reduce_mean : option torch_fn;
  mcs_reduce_var : option torch_fn
}.

Inductive module : Type :=
| MNetwork (n : Network)
| MRegressor (r : Regressor)
| MSampler (s : MCSampler).

Record Adam : Type := {
  adam_params : module;
  adam_lr : Py.num;
  adam_betas : Py.num * Py.num;
  adam_weight_decay : Py.num
}.

Record DCGANUpdater : Type := {
  upd_iterator : SerialIterator;
  upd_optimizer : list (string * Adam);
  upd_model : list (string * module);
  upd_alpha : Py.num;
  upd_device : string
}.

(** [np.inf] or an int. *)
Inductive patience : Type :=
| PatInf
| PatInt (n : Z).

Record EarlyStoppingTrigger : Type := {
  est_monitor : string;
  est_max_trigger : trigger;
  est_check_trigger : trigger;
  est_patients : patience
}.

Record ImageVisualizer : Type := {
  vis_transforms : list (string * torch_fn);
  vis_cmaps : option (list (string * string));
  vis_clims : list (string * (Py.num * Py.num))
}.

Record Inferencer : Type := {
  inf_iterator : SerialIterator;
  inf_model : MCSampler;
  inf_device : string
}.

Inductive extension : Type :=
| LinearShift (attr : string) (value_range : Py.num * Py.num)
    (time_range : Z * Z) (optimizer : Adam)
| Validator (iterator : SerialIterator) (model : Regressor)
    (filename : string) (visualizer : ImageVisualizer) (n_vis : Z)
    (device : string)
| snapshot (filename : string)
| snapshot_object (target : module) (filename : string)
| LogReport (keys : list string) (trig : trigger)
| PlotReport (y_keys : list string) (x_key : string) (file_name : string)
    (trig : trigger)
| PrintReport (entries : list string) (n_step : Z)
| ProgressBar.

(** A trainer: updater, stop trigger, output directory, and the extensions
    in the order of the [extend] calls, each with the trigger given to
    [extend] ([None] when the call gives none). *)
Record Trainer : Type := {
  tr_updater : DCGANUpdater;
  tr_stop_trigger : EarlyStoppingTrigger;
  tr_out : string;
  tr_extensions : list (extension * option trigger)
}.

Definition Trainer_new (updater : DCGANUpdater)
    (stop_trigger : EarlyStoppingTrigger) (out : string) : Trainer :=
  {| tr_updater := updater; tr_stop_trigger := stop_trigger;
     tr_out := out; tr_extensions := [] |}.

Definition extend (t : Trainer) (e : extension) (trig : option trigger)
    : Trainer :=
  {| tr_updater := tr_updater t; tr_stop_trigger := tr_stop_trigger t;
     tr_out := tr_out t; tr_extensions := (tr_extensions t ++ [(e, trig)])%list |}.

(** ** Arrays

    numpy and torch arrays and the operations on them are parameters: the
    driver only composes them. *)
Record Numeric : Type := {
  ndarray : Type;
  scalar : Type;
  (** [a.astype(np.float32)] *)
  np_astype_float32 : ndarray -> ndarray;
  (** [a.transpose(axes)] *)
  np_transpose : ndarray -> list Z -> ndarray;
  (** [a[:, :, ::-1]] *)
  np_reverse_last : ndarray -> ndarray;
  (** [a + c], [a / c] for a Python number [c] *)
  np_add : ndarray -> Py.num -> ndarray;
  np_div : ndarray -> Py.num -> ndarray;
  (** [a - b], [np.abs(a)] *)
  np_sub : ndarray -> ndarray -> ndarray;
  np_abs : ndarray -> ndarray;
  (** [np.mean(a, axis=k)], [np.mean(a)] *)
  np_mean_axis : ndarray -> Z -> ndarray;
  np_mean : ndarray -> scalar;
  (** [np.percentile(arrays, q)] of at least one array; see [percentile]
      for the call on an empty list *)
  np_percentile : list ndarray -> Py.num -> scalar;
  (** ['%.<d>f' % v] *)
  fmt_float : nat -> scalar -> string;
  (** applying a torch function to an array *)
  torch_apply : torch_fn -> ndarray -> ndarray;
  (** mean and variance over a stack of Monte-Carlo samples *)
  stack_mean : list ndarray -> ndarray;
  stack_var : list ndarray -> ndarray
}.

(** ** The outside world

    What the file system, the data set library, the network and the
    validation loop answer. *)
Record World (N : Numeric) : Type := {
  (** the (image path, label path) pairs a data set object holds *)
  entries : Dataset -> list (string * string);
  (** the input array of sample [i] of a data set *)
  get_example : Dataset -> Z -> ndarray N;
  (** [load_image(path)[0]] *)
  load_image : string -> ndarray N;
  (** [find_latest_snapshot(pattern, dir)] *)
  find_latest_snapshot : string -> string -> string;
  (** [os.path.commonpath(paths)]; [None] when it raises ValueError (no
      path, or absolute paths mixed with relative ones) *)
  commonpath : list string -> option string;
  (** [os.path.relpath(path, start)] *)
  relpath : string -> string -> string;
  (** one stochastic forward pass of a network: sample index, pass index,
      input *)
  stochastic_forward : Network -> Z -> Z -> ndarray N -> ndarray N;
  (** [extensions.PlotReport.available()] *)
  plot_available : bool;
  (** whether the validation loss seen at the check of iteration [i] is
      better than the best one so far *)
  loss_improved : Z -> bool;
  (** iteration counter and early-stopping counter stored in a trainer
      snapshot *)
  snapshot_iteration : string -> Z;
  snapshot_count : string -> Z
}.

Arguments entries {N}.
Arguments get_example {N}.
Arguments load_image {N}.
Arguments find_latest_snapshot {N}.
Arguments commonpath {N}.
Arguments relpath {N}.
Arguments stochastic_forward {N}.
Arguments plot_available {N}.
Arguments loss_improved {N}.
Arguments snapshot_iteration {N}.
Arguments snapshot_count {N}.

(** ** Effects: traces of calls, exceptions *)

Inductive exn : Type :=
| RuntimeError (msg : string)
| ValueError (msg : string)
| ZeroDivisionError (msg : string)
| IndexError (msg : string).

(** How a computation ends.  [OutOfFuel] belongs to the model only: the
    trainer loop is run with a bound on the number of rounds. *)
Inductive outcome (A : Type) : Type :=
| Returned (a : A)
| Raised (e : exn)
| OutOfFuel.

Arguments Returned {A}.
Arguments Raised {A}.
Arguments OutOfFuel {A}.

(** The calls of the two phases, recorded when the body is entered. *)
Inductive call : Type :=
| call_train_phase (generator : Network) (train valid : Dataset)
| call_test_phase (generator : Network) (test : Dataset).

Section Driver.

Context {N : Numeric}.
Variable W : World N.

Inductive clim_bound : Type :=
| CNum (n : Py.num)
| CScalar (v : scalar N).

(** The calls into [matplotlib.pyplot]. *)
Inductive plt_call : Type :=
| rcParams_set (key : string) (value : Z)
| figure (figsize : Z * Z)
| subplot (nrows ncols index : Z)
| imshow (pic : ndarray N) (cmap : option string)
| xticks (ticks labels : list string)
| yticks (ticks labels : list string)
| title (label : string)
| clim (c : option (clim_bound * clim_bound))
| tight_layout
| savefig (fname : string)
| close.

Inductive event : Type :=
| Print (line : string)
| Makedirs (path : string)
| FixedSeed (seed : Z) (strict : bool)
| FreezeLayers (name : string) (recursive verbose : bool)
| SaveArgs (args : Args.t) (dir : string)
| NetworkSaveArgs (n : Network) (path : string)
| NormalizerSummary (n : Normalizer) (path : string)
| AugmentorSummary (a : DataAugmentor) (path : string)
| ToDevice (m : module) (device : string)
| LoadStateDict (m : module) (path : string)
| TrainerLoadStateDict (path : string)
| Call (c : call)
| Forward (predictor : Network) (sample pass : Z)
| Update (iteration : Z)
| Invoke (e : extension) (iteration : Z)
| Plt (c : plt_call).

Definition M (A : Type) : Type := (list event * outcome A)%type.

Definition ret {A : Type} (a : A) : M A := ([], Returned a).

Definition bind {A B : Type} (m : M A) (k : A -> M B) : M B :=
  match m with
  | (t, Returned a) => let '(t', r) := k a in ((t ++ t')%list, r)
  | (t, Raised e) => (t, Raised e)
  | (t, OutOfFuel) => (t, OutOfFuel)
  end.

Definition emit (e : event) : M unit := ([e], Returned tt).
Definition raise {A : Type} (e : exn) : M A := ([], Raised e).
Definition out_of_fuel {A : Type} : M A := ([], OutOfFuel).

Notation "x <- m ;; k" := (bind m (fun x => k))
  (at level 61, m at next level, right associativity).
Notation "m ;; k" := (bind m (fun _ => k))
  (at level 61, right associativity).

(** A [for] loop over a list that threads the loop's variables. *)
Fixpoint for_each {A S : Type} (l : list A) (body : A -> S -> M S) (s : S)
    : M S :=
  match l with
  | [] => ret s
  | a :: r => s' <- body a s ;; for_each r body s'
  end.

(** A list comprehension whose element expression has effects. *)
Fixpoint for_list {A B : Type} (l : list A) (f : A -> M B) : M (list B) :=
  match l with
  | [] => ret []
  | a :: r => b <- f a ;; bs <- for_list r f ;; ret (b :: bs)
  end.

Definition print (line : string) : M unit := emit (Print line).

(** [len(dataset)] and the two file lists of [dataset.files]. *)
Definition len (d : Dataset) : Z := Z.of_nat (List.length (entries W d)).
Definition files_image (d : Dataset) : list string := map fst (entries W d).
Definition files_label (d : Dataset) : list string := map snd (entries W d).

(** ** The trainer loop

    The trainer framework ([pytorch_trainer]: [Trainer], the interval
    triggers, [EarlyStoppingTrigger], the extensions) is not part of the
    driver.  The spec names its parts ("a generic trainer with pluggable
    extensions", "early stopping", "training runs N iterations", "snapshot
    files per iteration"); the model below keeps an iteration counter,
    interval triggers that fire once per period, the stop trigger, and the
    invocation of the extensions after each update. *)

(** Modelled from the spec: the interval trigger of the trainer framework.
    A trigger [(period, 'iteration')] consulted at iteration [cur] and last
    consulted at [prev] fires when the two lie in different periods; the
    floor division raises for a period of 0. *)
Definition interval_fires (period prev cur : Z) : M bool :=
  if period =? 0 then
    raise (ZeroDivisionError "integer division or modulo by zero")
  else
    ret (negb (Py.floordiv prev period =? Py.floordiv cur period)).

Record TrainerState : Type := {
  ts_iteration : Z;
  ts_count : Z
}.

(** [count >= patience]. *)
Definition patience_reached (count : Z) (p : patience) : bool :=
  match p with
  | PatInf => false
  | PatInt n => n <=? count
  end.

(** Modelled from the spec: the early-stopping trigger of the trainer
    framework, consulted before every update.  It was last consulted one
    iteration earlier (at iteration 0 when the loop starts).  The maximum
    trigger is asked first; then, at a check point, the monitored value
    either improves, which resets the counter, or counts against the
    patience. *)
Definition stop_trigger_call (t : EarlyStoppingTrigger) (st : TrainerState)
    : M (bool * TrainerState) :=
  let cur := ts_iteration st in
  let prev := Z.max 0 (cur - 1) in
  fire_max <- interval_fires (fst (est_max_trigger t)) prev cur ;;
  if fire_max : bool then ret (true, st)
  else
    fire_check <- interval_fires (fst (est_check_trigger t)) prev cur ;;
    if negb fire_check then ret (false, st)
    else
      let count := if loss_improved W cur then 0 else ts_count st + 1 in
      ret (patience_reached count (est_patients t),
           {| ts_iteration := cur; ts_count := count |}).

(** Modelled from the spec: which trigger decides when an extension of
    the trainer framework acts.  It is the one given to [extend], else the
    one given to the extension itself, else every iteration for
    [LinearShift].  [PrintReport] and [ProgressBar] only write to the
    terminal and are left out of the trace. *)
Definition effective_trigger (e : extension * option trigger)
    : option trigger :=
  match e with
  | (_, Some t) => Some t
  | (LogReport _ t, None) => Some t
  | (PlotReport _ _ _ t, None) => Some t
  | (LinearShift _ _ _ _, None) => Some (1, "iteration")
  | (_, None) => None
  end.

(** Modelled from the spec: the trainer framework invokes an extension
    after the update that reaches iteration [cur] when its trigger fires. *)
Definition run_extension (cur : Z) (e : extension * option trigger)
    : M unit :=
  match effective_trigger e with
  | None => ret tt
  | Some (period, _) =>
      fire <- interval_fires period (cur - 1) cur ;;
      if fire : bool then emit (Invoke (fst e) cur) else ret tt
  end.

Definition run_extensions (t : Trainer) (cur : Z) : M unit :=
  for_each (tr_extensions t) (fun e _ => run_extension cur e) tt.

(** Modelled from the spec: [Trainer.run] of the trainer framework,
    [while not stop_trigger(trainer): update(); run the extensions], with a
    bound [fuel] on the number of rounds. *)
Fixpoint Trainer_loop (fuel : nat) (t : Trainer) (st : TrainerState)
    : M TrainerState :=
  match fuel with
  | O => out_of_fuel
  | S fuel' =>
      r <- stop_trigger_call (tr_stop_trigger t) st ;;
      let '(stop, st) := r in
      if stop : bool then ret st
      else
        let cur := ts_iteration st + 1 in
        emit (Update cur) ;;
        run_extensions t cur ;;
        Trainer_loop fuel' t {| ts_iteration := cur; ts_count := ts_count st |}
  end.

Definition fresh_state : TrainerState := {| ts_iteration := 0; ts_count := 0 |}.

Definition Trainer_run (fuel : nat) (t : Trainer) (st : TrainerState)
    : M unit :=
  Trainer_loop fuel t st ;; ret tt.

(** ** Inference *)

Definition apply_opt (f : option torch_fn) (a : ndarray N) : ndarray N :=
  match f with
  | None => a
  | Some g => torch_apply N g a
  end.

(** Modelled from the spec: [MCSampler] of [pytorch_bcnn.links] is not part
    of the driver.  The spec: "MC (Monte-Carlo) sampling: repeated
    stochastic forward passes used to estimate predictive uncertainty", the
    number of passes being the "Monte-Carlo sample count".  So the sampler
    runs [mc_iteration] stochastic passes of its predictor on an input,
    applies the activation to each, and returns the mean and the variance
    over the passes, each through its reduction when one is given. *)
Definition MCSampler_forward (m : MCSampler) (sample : Z) (x : ndarray N)
    : M (ndarray N * ndarray N) :=
  ys <- for_list (Py.range (mcs_mc_iteration m)) (fun k =>
          emit (Forward (mcs_predictor m) sample k) ;;
          ret (apply_opt (mcs_activation m)
                 (stochastic_forward W (mcs_predictor m) sample k x))) ;;
  ret (apply_opt (mcs_reduce_mean m) (stack_mean N ys),
       apply_opt (mcs_reduce_var m) (stack_var N ys)).

(** Modelled from the spec: [Inferencer] of [pytorch_bcnn.inference] is not
    part of the driver.  The spec: "Evaluation outputs are per-sample
    prediction, predictive variance".  So the inferencer applies the sampler
    to every sample of its iterator, in order, and returns the predictions
    and the variances; batching is left out. *)
Definition Inferencer_run (inf : Inferencer)
    : M (list (ndarray N) * list (ndarray N)) :=
  let d := it_dataset (inf_iterator inf) in
  rs <- for_list (Py.range (len d)) (fun i =>
          MCSampler_forward (inf_model inf) i (get_example W d i)) ;;
  ret (map fst rs, map snd rs).

(** ** The driver *)

Definition f_0 : spec_float := S754_zero false.
Definition f_1 : spec_float := S754_finite false 4503599627370496 (-52).
Definition f_m1 : spec_float := S754_finite true 4503599627370496 (-52).
Definition f_2 : spec_float := S754_finite false 4503599627370496 (-51).

Definition nl : string := String (ascii_of_nat 10) "".

Definition eval_metric (y t : ndarray N) : scalar N :=
  let mean_absolute_error := fun y t =>
    let y := np_astype_float32 N y in
    let t := np_astype_float32 N t in
    np_mean N (np_abs N (np_sub N y t)) in
  mean_absolute_error y t.

(** The checkpoint interval computed in [train_phase]. *)
Definition frequency (args : Args.t) : Z :=
  if Args.frequency args =? -1
  then Py.maxZ (Py.floordiv (Args.iteration args) 80) 1
  else Py.maxZ 1 (Args.frequency args).

Definition log_keys : list string :=
  ["loss_gen"; "loss_cond"; "loss_dis"; "validation/main/accuracy"].

(** The trainer that [train_phase] builds, up to the [resume] test. *)
Definition build_trainer (generator : Network) (discriminator : Network)
    (train valid : Dataset) (args : Args.t) : Trainer :=
  let train_iter := {| it_dataset := train;
                       it_batch_size := Args.batchsize args;
                       it_repeat := None; it_shuffle := None |} in
  let valid_iter := {| it_dataset := valid;
                       it_batch_size := Args.batchsize args;
                       it_repeat := Some false; it_shuffle := Some true |} in
  let model := {| reg_predictor := generator;
                  reg_activation := torch_tanh;
                  reg_lossfun := l1_loss;
                  reg_accfun := l1_loss |} in
  let optimizer_G := {| adam_params := MRegressor model;
                        adam_lr := Args.lr args;
                        adam_betas := (Args.beta args, Py.NFloat f_0_999);
                        adam_weight_decay :=
                          Py.max (Args.decay args) (Py.NInt 0) |} in
  let optimizer_D := {| adam_params := MNetwork discriminator;
                        adam_lr := Args.lr args;
                        adam_betas := (Args.beta args, Py.NFloat f_0_999);
                        adam_weight_decay :=
                          Py.max (Args.decay args) (Py.NInt 0) |} in
  let updater := {| upd_iterator := train_iter;
                    upd_optimizer := [("gen", optimizer_G);
                                      ("dis", optimizer_D)];
                    upd_model := [("gen", MRegressor model);
                                  ("dis", MNetwork discriminator)];
                    upd_alpha := Args.alpha args;
                    upd_device := Args.gpu args |} in
  let frequency := frequency args in
  let stop_trigger := {|
    est_monitor := "validation/main/loss";
    est_max_trigger := (Args.iteration args, "iteration");
    est_check_trigger := (frequency, "iteration");
    est_patients := if Args.pinfall args =? -1 then PatInf
                    else PatInt (Py.maxZ 1 (Args.pinfall args)) |} in
  let trainer := Trainer_new updater stop_trigger (Args.out args) in
  let trainer := extend trainer
    (LinearShift "lr" (Args.lr args, Py.NFloat f_0)
       (Py.floordiv (Args.iteration args) 2, Args.iteration args)
       optimizer_G) None in
  let trainer := extend trainer
    (LinearShift "lr" (Args.lr args, Py.NFloat f_0)
       (Py.floordiv (Args.iteration args) 2, Args.iteration args)
       optimizer_D) None in
  let transforms := [("x", identity); ("y", identity); ("t", identity)] in
  let clims := [("x", (Py.NFloat f_m1, Py.NFloat f_1));
                ("y", (Py.NFloat f_m1, Py.NFloat f_1));
                ("t", (Py.NFloat f_m1, Py.NFloat f_1))] in
  let visualizer := {| vis_transforms := transforms;
                       vis_cmaps := None;
                       vis_clims := clims |} in
  let valid_file :=
    Py.path_join "validation" "iter_{.updater.iteration:08}.png" in
  let trainer := extend trainer
    (Validator valid_iter model valid_file visualizer 20 (Args.gpu args))
    (Some (frequency, "iteration")) in
  let trainer := extend trainer
    (snapshot "snapshot_iter_{.updater.iteration:08}.pth")
    (Some (frequency, "iteration")) in
  let trainer := extend trainer
    (snapshot_object (MNetwork generator)
       "generator_iter_{.updater.iteration:08}.pth")
    (Some (frequency, "iteration")) in
  let trainer := extend trainer
    (snapshot_object (MNetwork discriminator)
       "discriminator_iter_{.updater.iteration:08}.pth")
    (Some (frequency, "iteration")) in
  let trainer := extend trainer (LogReport log_keys (100, "iteration")) None in
  let trainer :=
    if plot_available W then
      fold_left (fun trainer plot_key =>
        let plot_keys :=
          filter (fun key => Py.startswith (Py.last_component key) plot_key)
                 log_keys in
        extend trainer
          (PlotReport plot_keys "iteration" (plot_key ++ ".png")
             (frequency, "iteration")) None)
        ["loss"; "accuracy"] trainer
    else trainer in
  let trainer := extend trainer
    (PrintReport (["iteration"] ++ log_keys ++ ["elapsed_time"])%list 1)
    None in
  let trainer := extend trainer ProgressBar None in
  trainer.

Definition train_phase (fuel : nat) (generator : Network)
    (train valid : Dataset) (args : Args.t) : M unit :=
  emit (Call (call_train_phase generator train valid)) ;;
  print "# samples:" ;;
  print ("-- train: " ++ Py.str (len train)) ;;
  print ("-- valid: " ++ Py.str (len valid)) ;;
  let discriminator := build_discriminator in
  emit (NetworkSaveArgs discriminator
          (Py.path_join (Args.out args) "discriminator.json")) ;;
  let device := Args.gpu args in
  emit (ToDevice (MRegressor {| reg_predictor := generator;
                                reg_activation := torch_tanh;
                                reg_lossfun := l1_loss;
                                reg_accfun := l1_loss |}) device) ;;
  emit (ToDevice (MNetwork discriminator) device) ;;
  let trainer := build_trainer generator discriminator train valid args in
  st <- (if (String.length (Args.resume args) =? 0)%nat
         then ret fresh_state
         else
           emit (TrainerLoadStateDict (Args.resume args)) ;;
           ret {| ts_iteration := snapshot_iteration W (Args.resume args);
                  ts_count := snapshot_count W (Args.resume args) |}) ;;
  Trainer_run fuel trainer st.

Definition zip4 {A B C D : Type} (a : list A) (b : list B) (c : list C)
    (d : list D) : list (A * B * C * D) :=
  combine (combine (combine a b) c) d.

(** The body of the [for] loop of [test_phase]: one comparison figure.
    The loop's variables are the two lists [acc_values] and
    [uncert_values]. *)
Definition plot_comparison (args : Args.t) (commonpath : string)
    (uncert_clim error_clim : clim_bound * clim_bound)
    (item : Z * (ndarray N * ndarray N * string * string))
    (values : list (scalar N) * list (scalar N))
    : M (list (scalar N) * list (scalar N)) :=
  let '(i, (p, u, imf, lbf)) := item in
  let '(acc_values, uncert_values) := values in
  let im := load_image W imf in
  let lb := load_image W lbf in
  let im := np_astype_float32 N im in
  let lb := np_astype_float32 N lb in
  let p := np_transpose N p [1; 2; 0] in
  let im := np_div N (np_add N (np_reverse_last N im) (Py.NFloat f_1))
              (Py.NFloat f_2) in
  let lb := np_div N (np_add N (np_reverse_last N lb) (Py.NFloat f_1))
              (Py.NFloat f_2) in
  let p := np_div N (np_add N (np_reverse_last N p) (Py.NFloat f_1))
             (Py.NFloat f_2) in
  let error := np_mean_axis N (np_abs N (np_sub N p lb)) (-1) in
  let acc_values := (acc_values ++ [eval_metric p lb])%list in
  let uncert_values := (uncert_values ++ [np_mean N u])%list in
  emit (Plt (figure (20, 4))) ;;
  for_each
    (Py.enumerate (zip4
       [im; p; lb; u; error]
       [None; None; None; Some "jet"; Some "jet"]
       [None; None; None; Some uncert_clim; Some error_clim]
       ["Input image" ++ nl ++ relpath W imf commonpath;
        "Predicted label" ++ nl ++ "(MAE="
          ++ fmt_float N 3 (List.last acc_values (eval_metric p lb))
          ++ ")";
        "Ground-truth label";
        "Predicted variance" ++ nl ++ "(PV="
          ++ fmt_float N 4 (List.last uncert_values (np_mean N u))
          ++ ")";
        "Error"]))
    (fun '(j, (pic, cmap, cl, ttl)) _ =>
       emit (Plt (subplot 1 5 (j + 1))) ;;
       emit (Plt (imshow pic cmap)) ;;
       emit (Plt (xticks [] [])) ;;
       emit (Plt (yticks [] [])) ;;
       emit (Plt (title ttl)) ;;
       emit (Plt (clim cl))) tt ;;
  emit (Plt tight_layout) ;;
  emit (Plt (savefig (Py.path_join (Args.out args)
                        ("test/" ++ Py.zero_padded 3 i ++ ".png")))) ;;
  emit (Plt close) ;;
  ret (acc_values, uncert_values).

(** [np.percentile(arrays, q)] as [test_phase] calls it: numpy raises
    IndexError when there is no array. *)
Definition percentile (arrays : list (ndarray N)) (q : Py.num)
    : M (scalar N) :=
  match arrays with
  | [] => raise (IndexError "index -1 is out of bounds for axis 0 with size 0")
  | _ :: _ => ret (np_percentile N arrays q)
  end.

(** The sampler [test_phase] wraps the generator in. *)
Definition test_sampler (generator : Network) (args : Args.t) : MCSampler :=
  {| mcs_predictor := generator;
     mcs_mc_iteration := Args.mc_iteration args;
     mcs_activation := Some torch_tanh;
     mcs_reduce_mean := None;
     mcs_reduce_var := Some (mean_dim 1) |}.

Definition test_phase (generator : Network) (test : Dataset) (args : Args.t)
    : M unit :=
  emit (Call (call_test_phase generator test)) ;;
  print "# samples:" ;;
  print ("-- test: " ++ Py.str (len test)) ;;
  let test_iter := {| it_dataset := test;
                      it_batch_size := Args.batchsize args;
                      it_repeat := Some false; it_shuffle := Some false |} in
  let snapshot_file :=
    find_latest_snapshot W "generator_iter_{.updater.iteration:08}.pth"
      (Args.out args) in
  emit (LoadStateDict (MNetwork generator) snapshot_file) ;;
  print ("Loaded a snapshot: " ++ snapshot_file) ;;
  let model := test_sampler generator args in
  let device := Args.gpu args in
  emit (ToDevice (MSampler model) device) ;;
  let infer := {| inf_iterator := test_iter; inf_model := model;
                  inf_device := Args.gpu args |} in
  r <- Inferencer_run infer ;;
  let '(pred, uncert) := r in
  emit (Makedirs (Py.path_join (Args.out args) "test")) ;;
  p95 <- percentile uncert (Py.NInt 95) ;;
  let uncert_clim := (CNum (Py.NInt 0), CScalar p95) in
  let error_clim := (CNum (Py.NInt 0), CNum (Py.NInt 1)) in
  let files := files_image test in
  commonpath <- match commonpath W files with
                | Some c => ret c
                | None => raise (ValueError "commonpath")
                end ;;
  emit (Plt (rcParams_set "font.size" 14)) ;;
  for_each
    (Py.enumerate (zip4 pred uncert (files_image test) (files_label test)))
    (plot_comparison args commonpath uncert_clim error_clim)
    ([], []) ;;
  ret tt.

Definition main (fuel : nat) (args : Args.t) : M unit :=
  print ("GPU: " ++ Args.gpu args) ;;
  print ("# Minibatch-size: " ++ Py.str (Args.batchsize args)) ;;
  print "" ;;
  emit (Makedirs (Args.out args)) ;;
  let normalizer := get_normalizer in
  let augmentor := get_augmentor in
  emit (FixedSeed (Args.seed args) false) ;;
  let generator := build_generator in
  (if Args.freeze_upconv args
   then emit (FreezeLayers "upconv" true true)
   else ret tt) ;;
  let '(train, valid, test) :=
    get_dataset (Args.data_root args) (Args.valid_split_ratio args)
      (Args.valid_augment args) (Some normalizer) (Some augmentor) in
  if Args.test_on_test args then
    @raise unit (RuntimeError
      "This example is under construction. Please tune the hyperparameters first..") ;;
    test_phase generator test args
  else if Args.test_on_valid args then
    test_phase generator valid args
  else
    emit (SaveArgs args (Args.out args)) ;;
    emit (NetworkSaveArgs generator
            (Py.path_join (Args.out args) "model.json")) ;;
    emit (NormalizerSummary normalizer
            (Py.path_join (Args.out args) "norm.json")) ;;
    emit (AugmentorSummary augmentor
            (Py.path_join (Args.out args) "augment.json")) ;;
    train_phase fuel generator train valid args.

End Driver.

Arguments Print {N}.
Arguments Makedirs {N}.
Arguments FixedSeed {N}.
Arguments FreezeLayers {N}.
Arguments SaveArgs {N}.
Arguments NetworkSaveArgs {N}.
Arguments NormalizerSummary {N}.
Arguments AugmentorSummary {N}.
Arguments ToDevice {N}.
Arguments LoadStateDict {N}.
Arguments TrainerLoadStateDict {N}.
Arguments Call {N}.
Arguments Forward {N}.
Arguments Update {N}.
Arguments Invoke {N}.
Arguments CNum {N}.

(** ** What a trace shows *)

Section Observations.

Context {N : Numeric}.

(** The phase calls of a trace, in order. *)
Definition call_of (e : @event N) : list call :=
  match e with Call c => [c] | _ => [] end.

Definition calls (t : list (@event N)) : list call := flat_map call_of t.

(** The configuration summaries a trace writes, in order. *)
Definition config_save_of (e : @event N) : list (@event N) :=
  match e with
  | SaveArgs _ _ | NetworkSaveArgs _ _
  | NormalizerSummary _ _ | AugmentorSummary _ _ => [e]
  | _ => []
  end.

Definition config_saves (t : list (@event N)) : list (@event N) :=
  flat_map config_save_of t.

(** The updates of a trace, in order. *)
Definition update_of (e : @event N) : list Z :=
  match e with Update i => [i] | _ => [] end.

Definition updates (t : list (@event N)) : list Z := flat_map update_of t.

(** The forward passes of a trace, in order: network, sample, pass. *)
Definition forward_of (e : @event N) : list (Network * Z * Z) :=
  match e with
  | Forward g i k => [(g, i, k)]
  | _ => []
  end.

Definition forwards (t : list (@event N)) : list (Network * Z * Z) :=
  flat_map forward_of t.

(** Events inside [test_phase] after its entry, and events of the trainer
    loop. *)
Definition test_event (e : @event N) : Prop :=
  match e with
  | Print _ | LoadStateDict _ _ | ToDevice _ _ | Forward _ _ _
  | Makedirs _ | Plt _ => True
  | _ => False
  end.

Definition loop_event (e : @event N) : Prop :=
  match e with
  | TrainerLoadStateDict _ | Update _ | Invoke _ _ => True
  | _ => False
  end.

(** The mode the flags select, in the order of the tests of [main]. *)
Inductive mode : Type :=
| ModeTestOnTest
| ModeTestOnValid
| ModeTrain.

Definition mode_of (args : Args.t) : mode :=
  if Args.test_on_test args then ModeTestOnTest
  else if Args.test_on_valid args then ModeTestOnValid
  else ModeTrain.

(** The data sets [main] builds. *)
Definition datasets_of (args : Args.t) : Dataset * Dataset * Dataset :=
  get_dataset (Args.data_root args) (Args.valid_split_ratio args)
    (Args.valid_augment args) (Some get_normalizer) (Some get_augmentor).

(** The file name a snapshot extension writes at an iteration: the format
    field of the pattern is replaced by the iteration, zero padded to 8. *)
Fixpoint format_iteration (pattern : string) (iteration : Z) : string :=
  let field := "{.updater.iteration:08}" in
  match pattern with
  | "" => ""
  | String c r =>
      if Py.startswith pattern field
      then Py.zero_padded 8 iteration
           ++ String.substring (String.length field)
                (String.length pattern - String.length field) pattern
      else String c (format_iteration r iteration)
  end.

(** pyplot's state machine (matplotlib is a library of its own): the open
    figures, the current one first, each with its axes in creation order,
    and the figures saved so far. *)
Record axes : Type := {
  ax_position : Z * Z * Z;
  ax_image : option (ndarray N);
  ax_cmap : option string;
  ax_title : string;
  ax_clim : option (@clim_bound N * @clim_bound N)
}.

Definition blank_axes (pos : Z * Z * Z) : axes :=
  {| ax_position := pos; ax_image := None; ax_cmap := None;
     ax_title := ""; ax_clim := None |}.

Record pyplot : Type := {
  open_figures : list (list axes);
  saved : list (string * list axes)
}.

(** Apply [f] to the current axes, the last ones created; pyplot creates
    axes when there are none. *)
Fixpoint on_current_axes (f : axes -> axes) (l : list axes) : list axes :=
  match l with
  | [] => [f (blank_axes (1, 1, 1))]
  | [a] => [f a]
  | a :: r => a :: on_current_axes f r
  end.

(** Apply [g] to the axes of the current figure; [plt.gcf()] opens a figure
    when there is none. *)
Definition on_current_figure (g : list axes -> list axes) (s : pyplot)
    : pyplot :=
  {| open_figures := match open_figures s with
                     | [] => [g []]
                     | f :: r => g f :: r
                     end;
     saved := saved s |}.

Definition current_axes (s : pyplot) : list axes :=
  match open_figures s with
  | [] => []
  | f :: _ => f
  end.

(** One call to pyplot. [plt.figure] opens a new figure and makes it the
    current one, [plt.close()] closes the current figure (and does nothing
    when there is none); every other call but the setting of [rcParams]
    works on the current figure and opens one when there is none.
    [plt.clim(None)], which the driver only calls after [plt.imshow],
    leaves the colour limits alone. *)
Definition plt_step (s : pyplot) (c : @plt_call N) : pyplot :=
  match c with
  | figure _ =>
      {| open_figures := [] :: open_figures s; saved := saved s |}
  | subplot r k i =>
      on_current_figure (fun f => (f ++ [blank_axes (r, k, i)])%list) s
  | imshow pic cmap =>
      on_current_figure (on_current_axes (fun a =>
           {| ax_position := ax_position a; ax_image := Some pic;
              ax_cmap := cmap; ax_title := ax_title a;
              ax_clim := ax_clim a |})) s
  | title label =>
      on_current_figure (on_current_axes (fun a =>
           {| ax_position := ax_position a; ax_image := ax_image a;
              ax_cmap := ax_cmap a; ax_title := label;
              ax_clim := ax_clim a |})) s
  | clim (Some c) =>
      on_current_figure (on_current_axes (fun a =>
           {| ax_position := ax_position a; ax_image := ax_image a;
              ax_cmap := ax_cmap a; ax_title := ax_title a;
              ax_clim := Some c |})) s
  | xticks _ _ | yticks _ _ =>
      on_current_figure (on_current_axes (fun a => a)) s
  | clim None | tight_layout => on_current_figure (fun f => f) s
  | savefig fname =>
      let s' := on_current_figure (fun f => f) s in
      {| open_figures := open_figures s';
         saved := (saved s ++ [(fname, current_axes s')])%list |}
  | close => {| open_figures := tl (open_figures s); saved := saved s |}
  | rcParams_set _ _ => s
  end.

Definition event_step (s : pyplot) (e : @event N) : pyplot :=
  match e with
  | Plt c => plt_step s c
  | _ => s
  end.

(** The figures that the driver's own calls to pyplot write to disk: path
    and content, in order. The figures that extensions of the trainer
    write ([PlotReport], the visualizer of the [Validator]) are written
    inside the framework: in a trace they are part of an [Invoke] event. *)
Definition figures_saved (t : list (@event N)) : list (string * list axes) :=
  saved (fold_left event_step t {| open_figures := []; saved := [] |}).

End Observations.

(** ** A small world to run the driver in

    Arrays are the text of the expression that computes them. *)

Module Sample.

Definition call1 (f a : string) : string := f ++ "(" ++ a ++ ")".
Definition call2 (f a b : string) : string := f ++ "(" ++ a ++ ", " ++ b ++ ")".

Definition num_text (n : Py.num) : string :=
  match n with
  | Py.NInt z => Py.str z
  | Py.NFloat _ => "<float>"
  end.

Definition fn_text (f : torch_fn) : string :=
  match f with
  | torch_tanh => "tanh"
  | l1_loss => "l1_loss"
  | mean_dim d => "mean[dim=" ++ Py.str d ++ "]"
  | identity => "id"
  end.

Definition text : Numeric := {|
  ndarray := string;
  scalar := string;
  np_astype_float32 := call1 "f32";
  np_transpose := fun a axes => call2 "transpose" a (String.concat "," (map Py.str axes));
  np_reverse_last := call1 "rev";
  np_add := fun a c => call2 "add" a (num_text c);
  np_div := fun a c => call2 "div" a (num_text c);
  np_sub := call2 "sub";
  np_abs := call1 "abs";
  np_mean_axis := fun a k => call2 "mean" a (Py.str k);
  np_mean := call1 "mean";
  np_percentile := fun l q => call2 "percentile" (String.concat ";" l) (num_text q);
  fmt_float := fun d v => call2 "fmt" (Py.str (Z.of_nat d)) v;
  torch_apply := fun f a => call1 (fn_text f) a;
  stack_mean := fun l => call1 "smean" (String.concat ";" l);
  stack_var := fun l => call1 "svar" (String.concat ";" l)
|}.

(** Two validation samples and one test sample under the data root, no
    improvement of the validation loss, snapshots taken at iteration 3. *)
Definition world : World text :=
  @Build_World text
    (fun d =>
       match ds_part d with
       | Whole => [("d/val/1_a.mha", "d/val/1_b.mha")]
       | TrainPart _ => [("d/train/1_a.mha", "d/train/1_b.mha");
                         ("d/train/2_a.mha", "d/train/2_b.mha");
                         ("d/train/3_a.mha", "d/train/3_b.mha")]
       | ValidPart _ => [("d/train/4_a.mha", "d/train/4_b.mha");
                         ("d/train/5_a.mha", "d/train/5_b.mha")]
       end)
    (fun _ i => call1 "x" (Py.str i))
    (call1 "load")
    (fun _ dir => Py.path_join dir "generator_iter_00000003.pth")
    (fun l => match l with [] => None | _ => Some "d" end)
    (fun p start => call2 "rel" p start)
    (fun _ i k x => call2 ("net" ++ Py.str i ++ "_" ++ Py.str k) x "")
    true
    (fun _ => false)
    (fun _ => 3)
    (fun _ => 0).

Definition args_valid : Args.t :=
  Args.mk "d" 5 200000 (-1) "cpu" "logs" "" false (Py.NFloat Args.f_0_1)
    (Py.NFloat Args.f_4e_4) (Py.NFloat Args.f_50) (Py.NFloat Args.f_0_5)
    (Py.NInt (-1)) 2 (-1) false false true 0.

Definition args_test : Args.t :=
  Args.mk "d" 5 200000 (-1) "cpu" "logs" "" false (Py.NFloat Args.f_0_1)
    (Py.NFloat Args.f_4e_4) (Py.NFloat Args.f_50) (Py.NFloat Args.f_0_5)
    (Py.NInt (-1)) 2 (-1) false true false 0.

Definition args_short : Args.t :=
  Args.mk "d" 5 4 2 "cpu" "logs" "" false (Py.NFloat Args.f_0_1)
    (Py.NFloat Args.f_4e_4) (Py.NFloat Args.f_50) (Py.NFloat Args.f_0_5)
    (Py.NInt (-1)) 2 (-1) false false false 0.


Definition args_nan : Args.t :=
  Args.mk "d" 5 4 2 "cpu" "logs" "" false (Py.NFloat Args.f_0_1)
    (Py.NFloat Args.f_4e_4) (Py.NFloat Args.f_50) (Py.NFloat Args.f_0_5)
    (Py.NFloat S754_nan) 2 (-1) false false false 0.

Definition args_negative : Args.t :=
  Args.mk "d" 5 (-1) (-1) "cpu" "logs" "" false (Py.NFloat Args.f_0_1)
    (Py.NFloat Args.f_4e_4) (Py.NFloat Args.f_50) (Py.NFloat Args.f_0_5)
    (Py.NInt (-1)) 2 (-1) false false false 0.

End Sample.

(** ** The two halves of [main]

    [main] first prepares (prints, output directory, seed, generator, data
    sets) and then runs the branch that the flags select. *)

Section MainParts.

Context {N : Numeric}.
Variable W : World N.

(** The trace of [main] up to the mode selection. *)
Definition main_prefix (args : Args.t) : list (@event N) :=
  app
    [Print ("GPU: " ++ Args.gpu args);
     Print ("# Minibatch-size: " ++ Py.str (Args.batchsize args));
     Print "";
     Makedirs (Args.out args);
     FixedSeed (Args.seed args) false]
    (if Args.freeze_upconv args
     then [FreezeLayers "upconv" true true] else []).

(** The [if]/[elif]/[else] at the end of [main]. *)
Definition main_branch (fuel : nat) (args : Args.t) : @M N unit :=
  let generator := build_generator in
  let train := fst (fst (datasets_of args)) in
  let valid := snd (fst (datasets_of args)) in
  let test := snd (datasets_of args) in
  if Args.test_on_test args then
    bind (@raise N unit (RuntimeError
      "This example is under construction. Please tune the hyperparameters first.."))
      (fun _ => test_phase W generator test args)
  else if Args.test_on_valid args then
    test_phase W generator valid args
  else
    bind (emit (SaveArgs args (Args.out args))) (fun _ =>
    bind (emit (NetworkSaveArgs generator
                  (Py.path_join (Args.out args) "model.json"))) (fun _ =>
    bind (emit (NormalizerSummary get_normalizer
                  (Py.path_join (Args.out args) "norm.json"))) (fun _ =>
    bind (emit (AugmentorSummary get_augmentor
                  (Py.path_join (Args.out args) "augment.json"))) (fun _ =>
    train_phase W fuel generator train valid args)))).

(** The trainer state [train_phase] starts the loop from: fresh, or loaded
    from the snapshot named by [--resume]. *)
Definition initial_state (args : Args.t) : TrainerState :=
  if (String.length (Args.resume args) =? 0)%nat then fresh_state
  else {| ts_iteration := snapshot_iteration W (Args.resume args);
          ts_count := snapshot_count W (Args.resume args) |}.

(** How many updates the maximum trigger of period [n] still allows at
    iteration [it]. *)
Definition remaining (n it : Z) : Z :=
  if it <? 0 then 0 else if it =? 0 then n else (- it) mod n.

(** The events of the extensions after the update that reaches iteration
    [cur], as long as no trigger has period 0. *)
Definition extension_events (cur : Z) (exts : list (extension * option trigger))
    : list (@event N) :=
  flat_map (fun e =>
    match effective_trigger e with
    | Some (p, _) =>
        if negb (Py.floordiv (cur - 1) p =? Py.floordiv cur p)
        then [Invoke (fst e) cur] else []
    | None => []
    end) exts.

(** The files among the claimed artifacts that an event writes: the JSON
    summaries of networks, normalizer and augmentor, and the snapshots,
    which go to the trainer's output directory [out]. *)
Definition artifact_of (out : string) (e : @event N) : list string :=
  match e with
  | NetworkSaveArgs _ p | NormalizerSummary _ p | AugmentorSummary _ p => [p]
  | Invoke (snapshot fn) it | Invoke (snapshot_object _ fn) it =>
      [Py.path_join out (format_iteration fn it)]
  | _ => []
  end.

Definition artifacts_written (out : string) (t : list (@event N))
    : list string :=
  flat_map (artifact_of out) t.

(** The three snapshot files of one checkpoint. *)
Definition checkpoint_files (out : string) (it : Z) : list string :=
  [Py.path_join out
     (format_iteration "snapshot_iter_{.updater.iteration:08}.pth" it);
   Py.path_join out
     (format_iteration "generator_iter_{.updater.iteration:08}.pth" it);
   Py.path_join out
     (format_iteration "discriminator_iter_{.updater.iteration:08}.pth" it)].

(** What the sampler computes for one sample, without the trace. *)
Definition mc_samples (m : MCSampler) (sample : Z) (x : ndarray N)
    : list (ndarray N) :=
  map (fun k => apply_opt (mcs_activation m)
                  (stochastic_forward W (mcs_predictor m) sample k x))
      (Py.range (mcs_mc_iteration m)).

Definition mc_prediction (m : MCSampler) (sample : Z) (x : ndarray N)
    : ndarray N :=
  apply_opt (mcs_reduce_mean m) (stack_mean N (mc_samples m sample x)).

Definition mc_variance (m : MCSampler) (sample : Z) (x : ndarray N)
    : ndarray N :=
  apply_opt (mcs_reduce_var m) (stack_var N (mc_samples m sample x)).

(** [(a[:, :, ::-1] + 1.) / 2.] *)
Definition rescale (a : ndarray N) : ndarray N :=
  np_div N (np_add N (np_reverse_last N a) (Py.NFloat f_1)) (Py.NFloat f_2).

(** The five panels of the comparison figure of one sample: prediction [p]
    and variance [u] as the inferencer returns them, image file [imf],
    label file [lbf]. *)
Definition comparison_figure (commonpath : string)
    (uncert_clim : @clim_bound N * @clim_bound N)
    (p u : ndarray N) (imf lbf : string) : list (@axes N) :=
  let im := rescale (np_astype_float32 N (load_image W imf)) in
  let lb := rescale (np_astype_float32 N (load_image W lbf)) in
  let p := rescale (np_transpose N p [1; 2; 0]) in
  [ {| ax_position := (1, 5, 1); ax_image := Some im; ax_cmap := None;
       ax_title := "Input image" ++ nl ++ relpath W imf commonpath;
       ax_clim := None |};
    {| ax_position := (1, 5, 2); ax_image := Some p; ax_cmap := None;
       ax_title := "Predicted label" ++ nl ++ "(MAE="
                   ++ fmt_float N 3 (eval_metric p lb) ++ ")";
       ax_clim := None |};
    {| ax_position := (1, 5, 3); ax_image := Some lb; ax_cmap := None;
       ax_title := "Ground-truth label";
       ax_clim := None |};
    {| ax_position := (1, 5, 4); ax_image := Some u; ax_cmap := Some "jet";
       ax_title := "Predicted variance" ++ nl ++ "(PV="
                   ++ fmt_float N 4 (np_mean N u) ++ ")";
       ax_clim := Some uncert_clim |};
    {| ax_position := (1, 5, 5);
       ax_image := Some (np_mean_axis N (np_abs N (np_sub N p lb)) (-1));
       ax_cmap := Some "jet";
       ax_title := "Error";
       ax_clim := Some (CNum (Py.NInt 0), CNum (Py.NInt 1)) |} ].

(** The predictions and the variances of all samples of a data set. *)
Definition predictions (m : MCSampler) (d : Dataset) : list (ndarray N) :=
  map (fun i => mc_prediction m i (get_example W d i)) (Py.range (len W d)).

Definition variances (m : MCSampler) (d : Dataset) : list (ndarray N) :=
  map (fun i => mc_variance m i (get_example W d i)) (Py.range (len W d)).

End MainParts.


(** ** Reading names back, and a world without files *)

(** [int(s)] on a string made of an optional minus sign and decimal digits,
    the form that zero padding produces; [None] for a string that is not of
    that form. *)
Definition py_int (s : string) : option Z :=
  option_map Z.of_int (NilZero.int_of_string s).


(** The trainer snapshots a trace loads, in order. *)
Definition trainer_loads {N : Numeric} (t : list (@event N)) : list string :=
  flat_map (fun e => match e with
                     | TrainerLoadStateDict p => [p]
                     | _ => []
                     end) t.

(** A world whose data sets hold no file: the inferencer returns no
    array. *)
Module EmptySample.

Definition world : World Sample.text :=
  @Build_World Sample.text
    (fun _ => [])
    (get_example Sample.world)
    (load_image Sample.world)
    (find_latest_snapshot Sample.world)
    (fun l => match l with [] => None | _ => Some "d" end)
    (relpath Sample.world)
    (stochastic_forward Sample.world)
    true
    (fun _ => false)
    (fun _ => 3)
    (fun _ => 0).

End EmptySample.

(** ** The optimizers *)

(** [torch.optim.Adam(params, lr=..., betas=..., weight_decay=...)]: the
    constructor checks its arguments in this order and raises ValueError
    at the first one it rejects ([not 0.0 <= lr], [not 0.0 <= betas[0] <
    1.0], [not 0.0 <= betas[1] < 1.0], [not 0.0 <= weight_decay]); a NaN
    fails every comparison. The messages are given without the value
    that torch appends. *)
Definition Adam_init (params : module) (lr : Py.num)
    (betas : Py.num * Py.num) (weight_decay : Py.num) : outcome Adam :=
  if negb (Py.num_le (Py.NFloat f_0) lr) then
    Raised (ValueError "Invalid learning rate")
  else if negb (Py.num_le (Py.NFloat f_0) (fst betas)
                && Py.num_lt (fst betas) (Py.NFloat f_1)) then
    Raised (ValueError "Invalid beta parameter at index 0")
  else if negb (Py.num_le (Py.NFloat f_0) (snd betas)
                && Py.num_lt (snd betas) (Py.NFloat f_1)) then
    Raised (ValueError "Invalid beta parameter at index 1")
  else if negb (Py.num_le (Py.NFloat f_0) weight_decay) then
    Raised (ValueError "Invalid weight_decay value")
  else
    Returned {| adam_params := params; adam_lr := lr; adam_betas := betas;
                adam_weight_decay := weight_decay |}.

(** The two constructor calls of [train_phase], one after the other: the
    parameters and the weight decay that each call that is made receives,
    and the two optimizers, or the exception of the first call that
    fails. [build_trainer] describes the trainer of a run in which both
    calls return. *)
Definition train_optimizers (generator discriminator : Network)
    (args : Args.t) : list (module * Py.num) * outcome (Adam * Adam) :=
  let model := {| reg_predictor := generator;
                  reg_activation := torch_tanh;
                  reg_lossfun := l1_loss;
                  reg_accfun := l1_loss |} in
  let call_G := (MRegressor model, Py.max (Args.decay args) (Py.NInt 0)) in
  let call_D := (MNetwork discriminator,
                 Py.max (Args.decay args) (Py.NInt 0)) in
  match Adam_init (MRegressor model) (Args.lr args)
          (Args.beta args, Py.NFloat f_0_999)
          (Py.max (Args.decay args) (Py.NInt 0)) with
  | Returned optimizer_G =>
      match Adam_init (MNetwork discriminator) (Args.lr args)
              (Args.beta args, Py.NFloat f_0_999)
              (Py.max (Args.decay args) (Py.NInt 0)) with
      | Returned optimizer_D =>
          ([call_G; call_D], Returned (optimizer_G, optimizer_D))
      | Raised e => ([call_G; call_D], Raised e)
      | OutOfFuel => ([call_G; call_D], OutOfFuel)
      end
  | Raised e => ([call_G], Raised e)
  | OutOfFuel => ([call_G], OutOfFuel)
  end.

(** Modelled from the spec: [max(decay, 0)] read on the value of the
    number: 0 for a negative number, the number itself otherwise. *)
Definition clamped_decay (d : Py.num) : Py.num :=
  match d with
  | Py.NInt z => Py.NInt (Z.max z 0)
  | Py.NFloat (S754_finite true _ _) | Py.NFloat (S754_infinity true) =>
      Py.NInt 0
  | Py.NFloat f => Py.NFloat f
  end.

(** Modelled from the spec: the name [%03d] of sample [i] when there are
    fewer than 1000 samples, written out digit by digit: hundreds, tens,
    units. *)
Definition three_digits (i : Z) : string :=
  String (ascii_of_nat (48 + Z.to_nat (i / 100)))
    (String (ascii_of_nat (48 + Z.to_nat ((i / 10) mod 10)))
       (String (ascii_of_nat (48 + Z.to_nat (i mod 10))) "")).

(** * Properties *)

(** ** Sanity of the Python built-ins *)

Example str_1234 : Py.str 1234 = "1234".
Proof. reflexivity. Qed.

Example zero_padded_7 : Py.zero_padded 3 7 = "007".
Proof. reflexivity. Qed.

Example zero_padded_1000 : Py.zero_padded 3 1000 = "1000".
Proof. reflexivity. Qed.

Example path_join_plain :
  Py.path_join "logs" "test/000.png" = "logs/test/000.png".
Proof. reflexivity. Qed.

Example path_join_slash : Py.path_join "logs/" "model.json" = "logs/model.json".
Proof. reflexivity. Qed.

Example path_join_empty : Py.path_join "" "model.json" = "model.json".
Proof. reflexivity. Qed.

Example last_component_key :
  Py.last_component "validation/main/accuracy" = "accuracy".
Proof. reflexivity. Qed.

Example format_iteration_12 :
  format_iteration "snapshot_iter_{.updater.iteration:08}.pth" 12
  = "snapshot_iter_00000012.pth".
Proof. reflexivity. Qed.

Lemma maxZ_max (a b : Z) : Py.maxZ a b = Z.max a b.
Proof.
  unfold Py.maxZ. destruct (Z.gtb_spec b a); lia.
Qed.

Lemma frequency_ge_1 (args : Args.t) : 1 <= frequency args.
Proof.
  unfold frequency, Py.floordiv. rewrite !maxZ_max.
  destruct (Args.frequency args =? -1); lia.
Qed.

(** ** Configuration built by [train_phase] *)

Section Configuration.

Context {N : Numeric}.
Variable W : World N.

(** C10: the checkpoint interval is at least 1 for all integer arguments,
    it is [max(iteration // 80, 1)] when [--frequency] is -1 and
    [max(1, frequency)] otherwise, and it is the interval that the
    validator, the three snapshot extensions and the plots receive. *)
Theorem frequency_positive (generator discriminator : Network)
    (train valid : Dataset) (args : Args.t) :
  1 <= frequency args
  /\ frequency args
     = (if Args.frequency args =? -1
        then Z.max (Args.iteration args / 80) 1
        else Z.max 1 (Args.frequency args))
  /\ Forall (fun et : extension * option trigger =>
       match et with
       | (Validator _ _ _ _ _ _, t)
       | (snapshot _, t)
       | (snapshot_object _ _, t) => t = Some (frequency args, "iteration")
       | (PlotReport _ _ _ t, _) => t = (frequency args, "iteration")
       | _ => True
       end)
       (tr_extensions (build_trainer W generator discriminator train valid args))
  /\ (exists it mo fn vi nv dv,
        In (Validator it mo fn vi nv dv, Some (frequency args, "iteration"))
           (tr_extensions (build_trainer W generator discriminator train valid args)))
  /\ In (snapshot "snapshot_iter_{.updater.iteration:08}.pth",
         Some (frequency args, "iteration"))
        (tr_extensions (build_trainer W generator discriminator train valid args))
  /\ In (snapshot_object (MNetwork generator)
           "generator_iter_{.updater.iteration:08}.pth",
         Some (frequency args, "iteration"))
        (tr_extensions (build_trainer W generator discriminator train valid args))
  /\ In (snapshot_object (MNetwork discriminator)
           "discriminator_iter_{.updater.iteration:08}.pth",
         Some (frequency args, "iteration"))
        (tr_extensions (build_trainer W generator discriminator train valid args)).
Proof.
  assert (Hf : frequency args
     = (if Args.frequency args =? -1
        then Z.max (Args.iteration args / 80) 1
        else Z.max 1 (Args.frequency args))).
  { unfold frequency, Py.floordiv. now rewrite !maxZ_max. }
  split; [apply frequency_ge_1|].
  split; [exact Hf|].
  unfold build_trainer.
  destruct (plot_available W); cbn [fold_left extend Trainer_new tr_extensions
    tr_updater tr_stop_trigger tr_out app].
  - split; [repeat constructor|].
    split; [do 6 eexists; cbn; right; right; left; reflexivity|].
    cbn; intuition.
  - split; [repeat constructor|].
    split; [do 6 eexists; cbn; right; right; left; reflexivity|].
    cbn; intuition.
Qed.

Lemma max_zero_clamped (d : Py.num) :
  Py.max d (Py.NInt 0) = clamped_decay d.
Proof.
  unfold Py.max, Py.num_gt, Py.num_compare, clamped_decay.
  destruct d as [z|[s| s | |s m e]].
  - rewrite (Z.compare_antisym z 0).
    destruct (Z.compare_spec z 0); cbn; f_equal; lia.
  - reflexivity.
  - destruct s; reflexivity.
  - reflexivity.
  - unfold Py.Z_compare_float.
    destruct (0 <=? e) eqn:He.
    + apply Z.leb_le in He.
      pose proof (Z.pow_pos_nonneg 2 e ltac:(lia) He) as Hp.
      destruct s.
      * assert (H : (0 ?= Z.neg m * 2 ^ e) = Gt) by (apply Z.compare_gt_iff; nia).
        now rewrite H.
      * assert (H : (0 ?= Z.pos m * 2 ^ e) = Lt) by (apply Z.compare_lt_iff; nia).
        now rewrite H.
    + destruct s; reflexivity.
Qed.

Lemma clamped_decay_accepted (d : Py.num) :
  d <> Py.NFloat S754_nan ->
  Py.num_le (Py.NFloat f_0) (clamped_decay d) = true.
Proof.
  intros Hn. unfold Py.num_le, Py.num_compare, clamped_decay.
  destruct d as [z|[s| s | |s m e]].
  - cbn. destruct (Z.compare_spec (Z.max z 0) 0); try reflexivity. lia.
  - destruct s; reflexivity.
  - destruct s; reflexivity.
  - congruence.
  - destruct s; reflexivity.
Qed.

(** C9: when the decay is not NaN and torch accepts the learning rate and
    the beta, [train_phase] makes both constructor calls, passes
    [max(decay, 0)] as weight decay to each of them (0 for a negative
    decay, the decay itself otherwise), and the two optimizers, which are
    those of the updater, hold that weight decay. *)
Theorem weight_decay_clamped (generator discriminator : Network)
    (train valid : Dataset) (args : Args.t) :
  Args.decay args <> Py.NFloat S754_nan ->
  Py.num_le (Py.NFloat f_0) (Args.lr args) = true ->
  Py.num_le (Py.NFloat f_0) (Args.beta args) = true ->
  Py.num_lt (Args.beta args) (Py.NFloat f_1) = true ->
  exists optimizer_G optimizer_D : Adam,
    train_optimizers generator discriminator args
    = ([(adam_params optimizer_G, clamped_decay (Args.decay args));
        (adam_params optimizer_D, clamped_decay (Args.decay args))],
       Returned (optimizer_G, optimizer_D))
    /\ adam_weight_decay optimizer_G = clamped_decay (Args.decay args)
    /\ adam_weight_decay optimizer_D = clamped_decay (Args.decay args)
    /\ (exists model, adam_params optimizer_G = MRegressor model
                      /\ reg_predictor model = generator)
    /\ adam_params optimizer_D = MNetwork discriminator
    /\ upd_optimizer
         (tr_updater
            (build_trainer W generator discriminator train valid args))
       = [("gen", optimizer_G); ("dis", optimizer_D)].
Proof.
  intros Hn Hlr Hb0 Hb1.
  pose proof (clamped_decay_accepted _ Hn) as Hwd.
  unfold train_optimizers, Adam_init. cbv zeta.
  rewrite max_zero_clamped. cbn [fst snd].
  rewrite Hlr, Hb0, Hb1, Hwd.
  change (Py.num_le (Py.NFloat f_0) (Py.NFloat f_0_999)) with true.
  change (Py.num_lt (Py.NFloat f_0_999) (Py.NFloat f_1)) with true.
  cbn [negb andb].
  lazymatch goal with
  | |- exists g d, (_, Returned (?x, ?y)) = _ /\ _ => exists x, y
  end.
  split; [reflexivity|].
  cbn [adam_weight_decay adam_params].
  split; [reflexivity|]. split; [reflexivity|].
  split; [eexists; split; reflexivity|]. split; [reflexivity|].
  unfold build_trainer. rewrite max_zero_clamped.
  destruct (plot_available W); reflexivity.
Qed.

End Configuration.

Lemma weight_decay_clamped_witness :
  exists optimizer_G optimizer_D : Adam,
    snd (train_optimizers build_generator build_discriminator Args.default)
    = Returned (optimizer_G, optimizer_D)
    /\ map snd
         (fst (train_optimizers build_generator build_discriminator
                 Args.default))
       = [Py.NInt 0; Py.NInt 0]
    /\ adam_weight_decay optimizer_G = Py.NInt 0
    /\ adam_weight_decay optimizer_D = Py.NInt 0.
Proof.
  destruct (weight_decay_clamped Sample.world build_generator
              build_discriminator
              (fst (fst (datasets_of Args.default)))
              (snd (fst (datasets_of Args.default)))
              Args.default)
    as (g & d & Ht & Hg & Hd & _);
    [discriminate|reflexivity|reflexivity|reflexivity|].
  exists g, d. rewrite Ht. cbn [fst snd map].
  split; [reflexivity|]. split; [reflexivity|]. split; assumption.
Defined.

(** A decay of -0.5 reaches both optimizers as 0, a decay of 0.25 as it
    is. *)
Example weight_decay_of_minus_half :
  map snd
    (fst (train_optimizers build_generator build_discriminator
            (Args.mk "d" 5 4 2 "cpu" "logs" "" false (Py.NFloat Args.f_0_1)
               (Py.NFloat Args.f_4e_4) (Py.NFloat Args.f_50)
               (Py.NFloat Args.f_0_5)
               (Py.NFloat (S754_finite true 4503599627370496 (-53)))
               2 (-1) false false false 0)))
  = [Py.NInt 0; Py.NInt 0].
Proof. vm_compute. reflexivity. Qed.

Example weight_decay_of_quarter :
  map snd
    (fst (train_optimizers build_generator build_discriminator
            (Args.mk "d" 5 4 2 "cpu" "logs" "" false (Py.NFloat Args.f_0_1)
               (Py.NFloat Args.f_4e_4) (Py.NFloat Args.f_50)
               (Py.NFloat Args.f_0_5)
               (Py.NFloat (S754_finite false 4503599627370496 (-54)))
               2 (-1) false false false 0)))
  = [Py.NFloat (S754_finite false 4503599627370496 (-54));
     Py.NFloat (S754_finite false 4503599627370496 (-54))].
Proof. vm_compute. reflexivity. Qed.

(** With [--decay nan] the weight decay [max(nan, 0)] is NaN: the
    constructor of the generator's optimizer raises, and no optimizer of
    the discriminator is ever constructed. *)
Lemma weight_decay_nan_stops_training :
  train_optimizers build_generator build_discriminator Sample.args_nan
  = ([(MRegressor {| reg_predictor := build_generator;
                     reg_activation := torch_tanh;
                     reg_lossfun := l1_loss;
                     reg_accfun := l1_loss |},
       Py.NFloat S754_nan)],
     Raised (ValueError "Invalid weight_decay value")).
Proof. vm_compute. reflexivity. Qed.

(** ** Normalizer, augmentor and data sets *)

(** C6: the normalizer holds exactly one operation, the subtraction of 0.,
    and every data set that [get_dataset] builds from it carries it. *)
Theorem normalizer_is_subtraction (data_root : string)
    (valid_split_ratio : Py.num) (valid_augment : bool)
    (augmentor : option DataAugmentor) :
  get_normalizer = [Subtract2D (Py.NFloat (S754_zero false))]
  /\ List.length get_normalizer = 1%nat
  /\ ds_normalizer (fst (fst (get_dataset data_root valid_split_ratio
         valid_augment (Some get_normalizer) augmentor)))
     = Some get_normalizer
  /\ ds_normalizer (snd (fst (get_dataset data_root valid_split_ratio
         valid_augment (Some get_normalizer) augmentor)))
     = Some get_normalizer
  /\ ds_normalizer (snd (get_dataset data_root valid_split_ratio
         valid_augment (Some get_normalizer) augmentor))
     = Some get_normalizer.
Proof.
  repeat split; destruct valid_augment; reflexivity.
Qed.

(** C7: the augmentor is resize-crop (286x286, then 256x256), flip along
    axis 1, flip along axis 2, in this order; [get_dataset] gives it to the
    training set, to the validation set only when [valid_augment] is set,
    and never to the test set. *)
Theorem augmentor_pipeline (data_root : string) (valid_split_ratio : Py.num)
    (valid_augment : bool) (normalizer : option Normalizer)
    (augmentor : option DataAugmentor) :
  get_augmentor = [ResizeCrop2D (286, 286) (256, 256); Flip2D 1; Flip2D 2]
  /\ ds_augmentor (fst (fst (get_dataset data_root valid_split_ratio
         valid_augment normalizer augmentor)))
     = augmentor
  /\ ds_augmentor (snd (fst (get_dataset data_root valid_split_ratio
         valid_augment normalizer augmentor)))
     = (if valid_augment then augmentor else None)
  /\ ds_augmentor (snd (get_dataset data_root valid_split_ratio
         valid_augment normalizer augmentor))
     = None.
Proof.
  repeat split; destruct valid_augment; reflexivity.
Qed.

(** ** Traces of the monad *)

Section Traces.

Context {N : Numeric}.

Lemma fst_bind {A B : Type} (m : @M N A) (k : A -> @M N B) :
  fst (bind m k)
  = (fst m ++ match snd m with
              | Returned a => fst (k a)
              | _ => []
              end)%list.
Proof.
  destruct m as [t [a|e|]]; simpl.
  - destruct (k a); reflexivity.
  - now rewrite app_nil_r.
  - now rewrite app_nil_r.
Qed.

Lemma snd_bind {A B : Type} (m : @M N A) (k : A -> @M N B) :
  snd (bind m k)
  = match snd m with
    | Returned a => snd (k a)
    | Raised e => Raised e
    | OutOfFuel => OutOfFuel
    end.
Proof.
  destruct m as [t [a|e|]]; simpl; try reflexivity.
  destruct (k a); reflexivity.
Qed.

Lemma Forall_bind {A B : Type} (P : @event N -> Prop) (m : @M N A)
    (k : A -> @M N B) :
  Forall P (fst m) -> (forall a, Forall P (fst (k a))) ->
  Forall P (fst (bind m k)).
Proof.
  intros Hm Hk. rewrite fst_bind. apply Forall_app. split; [exact Hm|].
  destruct (snd m); auto.
Qed.

Lemma Forall_for_each {A S : Type} (P : @event N -> Prop) (l : list A)
    (body : A -> S -> @M N S) :
  (forall a s, Forall P (fst (body a s))) ->
  forall s, Forall P (fst (for_each l body s)).
Proof.
  intros Hb. induction l as [|a l IH]; intros s; simpl.
  - constructor.
  - apply Forall_bind; auto.
Qed.

Lemma Forall_for_list {A B : Type} (P : @event N -> Prop) (l : list A)
    (f : A -> @M N B) :
  (forall a, Forall P (fst (f a))) -> Forall P (fst (for_list l f)).
Proof.
  intros Hf. induction l as [|a l IH]; simpl.
  - constructor.
  - apply Forall_bind; [apply Hf|]. intros b.
    apply Forall_bind; [exact IH|]. intros bs. constructor.
Qed.

Lemma flat_map_silent {X : Type} (sel : @event N -> list X)
    (t : list (@event N)) :
  Forall (fun e => sel e = []) t -> flat_map sel t = [].
Proof.
  induction 1 as [|e t He _ IH]; simpl; [reflexivity|].
  now rewrite He, IH.
Qed.

Lemma for_list_returns {A B : Type} (l : list A) (f : A -> @M N B)
    (tr : A -> list (@event N)) (g : A -> B) :
  (forall a, f a = (tr a, Returned (g a))) ->
  for_list l f = (flat_map tr l, Returned (map g l)).
Proof.
  intros Hf. induction l as [|a l IH]; simpl; [reflexivity|].
  rewrite Hf, IH. simpl. now rewrite app_nil_r.
Qed.

End Traces.

Ltac trace_forall :=
  repeat match goal with
  | |- Forall _ (fst (bind _ _)) => apply Forall_bind; [|intros]
  | |- Forall _ (fst (print _)) =>
      constructor; [first [exact I|reflexivity]|constructor]
  | |- Forall _ (fst (emit _)) =>
      constructor; [first [exact I|reflexivity]|constructor]
  | |- Forall _ (fst (ret _)) => constructor
  | |- Forall _ (fst (raise _)) => constructor
  | |- Forall _ (fst (for_each _ _ _)) => apply Forall_for_each; intros
  | |- Forall _ (fst (for_list _ _)) => apply Forall_for_list; intros
  | |- Forall _ (fst (match ?x with _ => _ end)) => destruct x
  | |- Forall _ (fst ((match ?x with _ => _ end) _)) => destruct x
  | |- Forall _ (fst ((match ?x with _ => _ end) _ _)) => destruct x
  | |- Forall _ (fst (if ?x then _ else _)) => destruct x
  end.

(** ** The phases and the mode selection of [main] *)

Section Phases.

Context {N : Numeric}.
Variable W : World N.

Lemma Inferencer_run_events (inf : Inferencer) :
  Forall test_event (fst (Inferencer_run W inf)).
Proof.
  unfold Inferencer_run, MCSampler_forward. trace_forall.
Qed.

Lemma plot_comparison_events (args : Args.t) (common : string)
    (uncert_clim error_clim : @clim_bound N * @clim_bound N)
    (item : Z * (ndarray N * ndarray N * string * string))
    (values : list (scalar N) * list (scalar N)) :
  Forall test_event
    (fst (plot_comparison W args common uncert_clim error_clim item values)).
Proof.
  destruct item as [i [[[p u] imf] lbf]], values as [acc unc].
  unfold plot_comparison. cbv zeta. trace_forall.
Qed.

Lemma test_phase_trace (generator : Network) (test : Dataset) (args : Args.t) :
  exists rest,
    fst (test_phase W generator test args)
    = Call (call_test_phase generator test) :: rest
    /\ Forall test_event rest.
Proof.
  unfold test_phase.
  rewrite fst_bind. cbn [emit fst snd app]. eexists. split; [reflexivity|].
  trace_forall;
    first [apply Inferencer_run_events|apply plot_comparison_events
          |unfold percentile; trace_forall].
Qed.

Lemma stop_trigger_call_trace (t : EarlyStoppingTrigger) (st : TrainerState) :
  fst (stop_trigger_call W t st) = [].
Proof.
  unfold stop_trigger_call, interval_fires.
  destruct (fst (est_max_trigger t) =? 0); [reflexivity|]. cbn.
  destruct (negb _); [reflexivity|].
  destruct (fst (est_check_trigger t) =? 0); [reflexivity|]. cbn.
  destruct (negb (negb _)); reflexivity.
Qed.

Lemma run_extensions_events (t : Trainer) (cur : Z) :
  Forall loop_event (fst (@run_extensions N t cur)).
Proof.
  unfold run_extensions, run_extension, interval_fires. trace_forall.
Qed.

Lemma Trainer_loop_events (fuel : nat) (t : Trainer) (st : TrainerState) :
  Forall loop_event (fst (Trainer_loop W fuel t st)).
Proof.
  revert st. induction fuel as [|fuel IH]; intros st; cbn [Trainer_loop].
  - constructor.
  - apply Forall_bind.
    + rewrite stop_trigger_call_trace. constructor.
    + intros [stop st']. destruct stop; [constructor|].
      cbv zeta. trace_forall; first [apply run_extensions_events|apply IH].
Qed.

Lemma train_phase_trace (fuel : nat) (generator : Network)
    (train valid : Dataset) (args : Args.t) :
  exists m1 m2 rest,
    fst (train_phase W fuel generator train valid args)
    = app
      [Call (call_train_phase generator train valid);
       Print "# samples:";
       Print ("-- train: " ++ Py.str (len W train));
       Print ("-- valid: " ++ Py.str (len W valid));
       NetworkSaveArgs build_discriminator
         (Py.path_join (Args.out args) "discriminator.json");
       ToDevice m1 (Args.gpu args);
       ToDevice m2 (Args.gpu args)] rest
    /\ Forall loop_event rest.
Proof.
  unfold train_phase, print.
  repeat (rewrite fst_bind; cbn [emit fst snd app]).
  do 3 eexists. split; [reflexivity|].
  apply Forall_app. split.
  - destruct (String.length (Args.resume args) =? 0)%nat; cbn.
    + constructor.
    + repeat constructor.
  - match goal with |- Forall _ (match ?x with _ => _ end) => destruct x end;
      try constructor.
    unfold Trainer_run. apply Forall_bind; [apply Trainer_loop_events|].
    intros; constructor.
Qed.

Lemma calls_test_event (t : list (@event N)) :
  Forall test_event t -> calls t = [] /\ config_saves t = [].
Proof.
  intros H. split; apply flat_map_silent;
    (eapply Forall_impl; [|exact H]); intros [] He; try reflexivity;
    destruct He.
Qed.

Lemma calls_loop_event (t : list (@event N)) :
  Forall loop_event t -> calls t = [] /\ config_saves t = [].
Proof.
  intros H. split; apply flat_map_silent;
    (eapply Forall_impl; [|exact H]); intros [] He; try reflexivity;
    destruct He.
Qed.

Lemma main_trace (fuel : nat) (args : Args.t) :
  fst (main W fuel args)
  = app (main_prefix args) (fst (main_branch W fuel args))
  /\ snd (main W fuel args) = snd (main_branch W fuel args).
Proof.
  unfold main, main_prefix, main_branch, datasets_of, print.
  destruct (get_dataset _ _ _ _ _) as [[train valid] test].
  destruct (Args.freeze_upconv args);
    repeat (rewrite ?fst_bind, ?snd_bind; cbn [emit ret fst snd app]);
    split; reflexivity.
Qed.

Lemma main_prefix_quiet (args : Args.t) :
  calls (@main_prefix N args) = [] /\ config_saves (@main_prefix N args) = [].
Proof.
  unfold main_prefix. destruct (Args.freeze_upconv args); split; reflexivity.
Qed.

(** C1: with [--test_on_test] set, [main] raises the RuntimeError that says
    the example is under construction, and no phase is entered: the call
    of [test_phase] on the test set written after the [raise] never runs. *)
Theorem test_on_test_raises (fuel : nat) (args : Args.t) :
  Args.test_on_test args = true ->
  (exists msg,
     snd (main W fuel args) = Raised (RuntimeError msg)
     /\ msg = "This example is under construction. Please tune the hyperparameters first.."
     /\ Py.startswith msg "This example is under construction" = true)
  /\ (forall c, ~ In (Call c) (fst (main W fuel args)))
  /\ calls (fst (main W fuel args)) = [].
Proof.
  intros H. destruct (main_trace fuel args) as [Ht Hs]. rewrite Ht, Hs.
  unfold main_branch. rewrite H. cbn [bind raise fst snd].
  rewrite app_nil_r.
  split; [eexists; repeat split; reflexivity|].
  split; [|apply main_prefix_quiet].
  intros c. unfold main_prefix.
  destruct (Args.freeze_upconv args); cbn; intuition discriminate.
Qed.

(** C2: the flags select one mode, [--test_on_test] before
    [--test_on_valid] before training.  Test-on-test enters no phase,
    saves nothing and raises; test-on-valid enters [test_phase] on the
    validation set and nothing else; training saves the argument, model,
    normalizer and augmentor summaries and enters [train_phase] (which
    saves the discriminator summary) and nothing else. *)
Theorem main_selects_one_mode (fuel : nat) (args : Args.t) :
  mode_of args
  = (if Args.test_on_test args then ModeTestOnTest
     else if Args.test_on_valid args then ModeTestOnValid
     else ModeTrain)
  /\ match mode_of args with
     | ModeTestOnTest =>
         calls (fst (main W fuel args)) = []
         /\ config_saves (fst (main W fuel args)) = []
         /\ snd (main W fuel args)
            = Raised (RuntimeError
                "This example is under construction. Please tune the hyperparameters first..")
     | ModeTestOnValid =>
         calls (fst (main W fuel args))
         = [call_test_phase build_generator (snd (fst (datasets_of args)))]
         /\ config_saves (fst (main W fuel args)) = []
     | ModeTrain =>
         calls (fst (main W fuel args))
         = [call_train_phase build_generator (fst (fst (datasets_of args)))
              (snd (fst (datasets_of args)))]
         /\ config_saves (fst (main W fuel args))
            = [SaveArgs args (Args.out args);
               NetworkSaveArgs build_generator
                 (Py.path_join (Args.out args) "model.json");
               NormalizerSummary get_normalizer
                 (Py.path_join (Args.out args) "norm.json");
               AugmentorSummary get_augmentor
                 (Py.path_join (Args.out args) "augment.json");
               NetworkSaveArgs build_discriminator
                 (Py.path_join (Args.out args) "discriminator.json")]
     end.
Proof.
  split; [reflexivity|].
  destruct (main_trace fuel args) as [Ht Hs]. rewrite Ht, Hs.
  destruct (main_prefix_quiet args) as [Hc Hv].
  unfold calls, config_saves in *. rewrite !flat_map_app, Hc, Hv.
  unfold mode_of, main_branch.
  destruct (Args.test_on_test args); [|destruct (Args.test_on_valid args)];
    cbv zeta.
  - cbn. repeat split; reflexivity.
  - destruct (test_phase_trace build_generator
                (snd (fst (datasets_of args))) args) as (rest & -> & Hr).
    destruct (calls_test_event rest Hr) as [Hc' Hv'].
    unfold calls, config_saves in *. cbn [flat_map app call_of config_save_of].
    now rewrite Hc', Hv'.
  - repeat (rewrite fst_bind; cbn [emit fst snd app]).
    destruct (train_phase_trace fuel build_generator
                (fst (fst (datasets_of args)))
                (snd (fst (datasets_of args))) args)
      as (m1 & m2 & rest & -> & Hr).
    destruct (calls_loop_event rest Hr) as [Hc' Hv'].
    unfold calls, config_saves in *.
    cbn [flat_map app call_of config_save_of].
    rewrite ?flat_map_app.
    cbn [flat_map app call_of config_save_of].
    now rewrite Hc', Hv'.
Qed.

End Phases.

Lemma test_on_test_raises_witness :
  (exists msg,
     snd (main Sample.world 10 Sample.args_test) = Raised (RuntimeError msg)
     /\ msg = "This example is under construction. Please tune the hyperparameters first.."
     /\ Py.startswith msg "This example is under construction" = true)
  /\ (forall c, ~ In (Call c) (fst (main Sample.world 10 Sample.args_test)))
  /\ calls (fst (main Sample.world 10 Sample.args_test)) = [].
Proof.
  apply (test_on_test_raises Sample.world 10 Sample.args_test).
  reflexivity.
Defined.

(** ** The trainer loop stops *)

Section Termination.

Context {N : Numeric}.
Variable W : World N.

Lemma remaining_bounds (n it : Z) :
  1 <= n -> 0 <= remaining n it <= n.
Proof.
  intros Hn. unfold remaining.
  destruct (Z.ltb_spec it 0); [lia|].
  destruct (Z.eqb_spec it 0); [lia|].
  pose proof (Z.mod_pos_bound (- it) n). lia.
Qed.

Lemma remaining_zero_fires (n it : Z) :
  1 <= n -> remaining n it = 0 ->
  (Z.max 0 (it - 1) / n =? it / n) = false.
Proof.
  intros Hn. unfold remaining.
  destruct (Z.ltb_spec it 0) as [Hneg|Hpos].
  - intros _. apply Z.eqb_neq.
    replace (Z.max 0 (it - 1)) with 0 by lia.
    rewrite Z.div_0_l by lia.
    pose proof (Z.div_lt_upper_bound it n 0). lia.
  - destruct (Z.eqb_spec it 0); [lia|].
    intros Hm. apply Z.eqb_neq.
    replace (Z.max 0 (it - 1)) with (it - 1) by lia.
    assert (Hd : it mod n = 0).
    { pose proof (Z.mod_opp_l_nz it n). pose proof (Z.mod_pos_bound it n).
      destruct (Z.eq_dec (it mod n) 0); [assumption|]. lia. }
    pose proof (Z.div_mod it n). pose proof (Z.div_mod (it - 1) n).
    pose proof (Z.mod_pos_bound (it - 1) n). nia.
Qed.

Lemma remaining_step (n it : Z) :
  1 <= n -> 0 < remaining n it ->
  remaining n (it + 1) = remaining n it - 1.
Proof.
  intros Hn. unfold remaining.
  destruct (Z.ltb_spec it 0); [lia|].
  destruct (Z.ltb_spec (it + 1) 0); [lia|].
  destruct (Z.eqb_spec (it + 1) 0); [lia|].
  destruct (Z.eqb_spec it 0) as [->|Hnz].
  - intros _. symmetry. apply (Z.mod_unique _ n (-1)); lia.
  - intros Hr.
    replace (- (it + 1)) with (- it - 1) by lia.
    pose proof (Z.mod_pos_bound (- it) n).
    pose proof (Z.div_mod (- it) n).
    symmetry. apply (Z.mod_unique (- it - 1) n (- it / n)); lia.
Qed.

Lemma stop_trigger_call_zero (t : EarlyStoppingTrigger) (st : TrainerState) :
  fst (est_max_trigger t) = 0 ->
  stop_trigger_call W t st
  = ([], Raised (ZeroDivisionError "integer division or modulo by zero")).
Proof.
  intros H. unfold stop_trigger_call, interval_fires. rewrite H. reflexivity.
Qed.

Lemma stop_trigger_call_returns (t : EarlyStoppingTrigger) (st : TrainerState) :
  fst (est_max_trigger t) <> 0 -> fst (est_check_trigger t) <> 0 ->
  exists b st',
    stop_trigger_call W t st = ([], Returned (b, st'))
    /\ ts_iteration st' = ts_iteration st
    /\ ((Z.max 0 (ts_iteration st - 1) / fst (est_max_trigger t)
         =? ts_iteration st / fst (est_max_trigger t)) = false -> b = true).
Proof.
  intros Hm Hc. unfold stop_trigger_call, interval_fires, Py.floordiv.
  apply Z.eqb_neq in Hm. apply Z.eqb_neq in Hc. rewrite Hm, Hc.
  cbn [bind ret app fst snd].
  destruct (Z.max 0 (ts_iteration st - 1) / fst (est_max_trigger t)
            =? ts_iteration st / fst (est_max_trigger t)) eqn:E1; cbn [negb].
  - destruct (Z.max 0 (ts_iteration st - 1) / fst (est_check_trigger t)
              =? ts_iteration st / fst (est_check_trigger t)) eqn:E2;
      cbn [negb].
    + do 2 eexists. split; [reflexivity|]. split; [reflexivity|discriminate].
    + do 2 eexists. split; [reflexivity|]. split; [reflexivity|discriminate].
  - do 2 eexists. split; [reflexivity|]. split; reflexivity.
Qed.

Lemma run_extensions_returns (t : Trainer) (cur : Z) :
  Forall (fun e => match effective_trigger e with
                   | Some (p, _) => p <> 0
                   | None => True
                   end) (tr_extensions t) ->
  snd (@run_extensions N t cur) = Returned tt
  /\ updates (fst (@run_extensions N t cur)) = [].
Proof.
  unfold run_extensions. generalize (tr_extensions t) as l.
  induction 1 as [|e l He _ [IHs IHu]]; cbn [for_each].
  - split; reflexivity.
  - assert (Hr : exists tr, @run_extension N cur e = (tr, Returned tt)
                            /\ updates tr = []).
    { unfold run_extension, interval_fires.
      destruct (effective_trigger e) as [[p u]|]; [|eexists; split; reflexivity].
      apply Z.eqb_neq in He. rewrite He. cbn [bind ret app fst snd].
      destruct (negb _); eexists; split; reflexivity. }
    destruct Hr as (tr & -> & Hu).
    rewrite snd_bind, fst_bind. cbn [fst snd].
    split; [exact IHs|].
    unfold updates in *. now rewrite flat_map_app, Hu, IHu.
Qed.

Lemma Trainer_loop_bounded (t : Trainer) (fuel : nat) (st : TrainerState) :
  1 <= fst (est_max_trigger (tr_stop_trigger t)) ->
  fst (est_check_trigger (tr_stop_trigger t)) <> 0 ->
  Forall (fun e => match effective_trigger e with
                   | Some (p, _) => p <> 0
                   | None => True
                   end) (tr_extensions t) ->
  (Z.to_nat (remaining (fst (est_max_trigger (tr_stop_trigger t)))
               (ts_iteration st)) < fuel)%nat ->
  snd (Trainer_loop W fuel t st) <> OutOfFuel
  /\ Z.of_nat (List.length (updates (fst (Trainer_loop W fuel t st))))
     <= remaining (fst (est_max_trigger (tr_stop_trigger t)))
          (ts_iteration st).
Proof.
  intros Hn Hc He. revert st.
  induction fuel as [|fuel IH]; intros st Hfuel; [lia|].
  cbn [Trainer_loop].
  destruct (stop_trigger_call_returns (tr_stop_trigger t) st)
    as (b & st' & -> & Hit & Hfire); [lia|exact Hc|].
  pose proof (remaining_bounds _ (ts_iteration st) Hn) as Hb.
  rewrite snd_bind, fst_bind. cbn [fst snd app].
  destruct b.
  - cbn. split; [discriminate|lia].
  - assert (Hpos : 0 < remaining (fst (est_max_trigger (tr_stop_trigger t)))
                         (ts_iteration st)).
    { destruct (Z.eq_dec (remaining (fst (est_max_trigger (tr_stop_trigger t)))
                            (ts_iteration st)) 0) as [Hz|]; [|lia].
      specialize (Hfire (remaining_zero_fires _ _ Hn Hz)). discriminate. }
    cbv zeta.
    destruct (run_extensions_returns t (ts_iteration st' + 1) He) as [Hs Hu].
    repeat (rewrite ?snd_bind, ?fst_bind; cbn beta; cbn [emit fst snd app]).
    rewrite Hs.
    unfold updates in *. cbn [flat_map update_of app].
    rewrite flat_map_app, Hu. cbn [app List.length].
    rewrite Hit in *.
    pose proof (remaining_step _ _ Hn Hpos) as Hstep.
    destruct (IH {| ts_iteration := ts_iteration st + 1;
                    ts_count := ts_count st' |}) as [IHs IHu].
    { cbn [ts_iteration]. lia. }
    cbn [ts_iteration] in IHu.
    split; [exact IHs|]. lia.
Qed.

Lemma train_phase_loop (fuel : nat) (generator : Network)
    (train valid : Dataset) (args : Args.t) :
  updates (fst (train_phase W fuel generator train valid args))
  = updates (fst (Trainer_loop W fuel
      (build_trainer W generator build_discriminator train valid args)
      (initial_state W args)))
  /\ (snd (train_phase W fuel generator train valid args) = OutOfFuel ->
      snd (Trainer_loop W fuel
        (build_trainer W generator build_discriminator train valid args)
        (initial_state W args)) = OutOfFuel).
Proof.
  unfold train_phase, print, initial_state, Trainer_run.
  repeat (rewrite ?fst_bind, ?snd_bind; cbn [emit ret fst snd app]).
  unfold updates. cbn [flat_map update_of app].
  destruct (String.length (Args.resume args) =? 0)%nat;
    repeat (rewrite ?fst_bind, ?snd_bind; cbn [emit ret fst snd app]);
    cbn [flat_map update_of app];
    (split; [|destruct (snd (Trainer_loop _ _ _ _)); first [discriminate|reflexivity]]).
  - destruct (snd (Trainer_loop _ _ _ _)); now rewrite app_nil_r.
  - destruct (snd (Trainer_loop _ _ _ _)); now rewrite app_nil_r.
Qed.

Lemma build_trainer_periods (generator discriminator : Network)
    (train valid : Dataset) (args : Args.t) :
  Forall (fun e => match effective_trigger e with
                   | Some (p, _) => p <> 0
                   | None => True
                   end)
    (tr_extensions (build_trainer W generator discriminator train valid args)).
Proof.
  pose proof (frequency_ge_1 args) as Hf.
  unfold build_trainer.
  destruct (plot_available W);
    cbn [fold_left extend Trainer_new tr_extensions app];
    repeat constructor; cbn; lia.
Qed.

(** C8, as amended: the stop trigger is built from [--iteration], the
    checkpoint interval and [--pinfall] as claimed, and, for an iteration
    count that is not negative, the trainer loop ends (with fuel beyond the
    count it does not run out) after at most that many updates. *)
Theorem training_stops (fuel : nat) (generator : Network)
    (train valid : Dataset) (args : Args.t) :
  0 <= Args.iteration args ->
  (Z.to_nat (Args.iteration args) < fuel)%nat ->
  tr_stop_trigger
    (build_trainer W generator build_discriminator train valid args)
  = {| est_monitor := "validation/main/loss";
       est_max_trigger := (Args.iteration args, "iteration");
       est_check_trigger := (frequency args, "iteration");
       est_patients := if Args.pinfall args =? -1 then PatInf
                       else PatInt (Z.max 1 (Args.pinfall args)) |}
  /\ snd (train_phase W fuel generator train valid args) <> OutOfFuel
  /\ Z.of_nat (List.length
       (updates (fst (train_phase W fuel generator train valid args))))
     <= Args.iteration args.
Proof.
  intros Hn Hfuel.
  assert (Hst : tr_stop_trigger
    (build_trainer W generator build_discriminator train valid args)
  = {| est_monitor := "validation/main/loss";
       est_max_trigger := (Args.iteration args, "iteration");
       est_check_trigger := (frequency args, "iteration");
       est_patients := if Args.pinfall args =? -1 then PatInf
                       else PatInt (Z.max 1 (Args.pinfall args)) |}).
  { unfold build_trainer. rewrite maxZ_max.
    destruct (plot_available W); reflexivity. }
  split; [exact Hst|].
  destruct (train_phase_loop fuel generator train valid args) as [-> Hout].
  pose proof (frequency_ge_1 args) as Hf.
  destruct (Z.eq_dec (Args.iteration args) 0) as [Hz|Hnz].
  - destruct fuel as [|fuel]; [lia|].
    assert (Hl : Trainer_loop W (S fuel)
              (build_trainer W generator build_discriminator train valid args)
              (initial_state W args)
            = ([], Raised (ZeroDivisionError
                             "integer division or modulo by zero"))).
    { cbn [Trainer_loop]. rewrite stop_trigger_call_zero; [reflexivity|].
      rewrite Hst. exact Hz. }
    split.
    + intros H. apply Hout in H. rewrite Hl in H. discriminate.
    + rewrite Hl. cbn. lia.
  - destruct (Trainer_loop_bounded
                (build_trainer W generator build_discriminator train valid args)
                fuel (initial_state W args)) as [Hs Hu].
    + rewrite Hst. cbn. lia.
    + rewrite Hst. cbn. lia.
    + apply build_trainer_periods.
    + rewrite Hst. cbn [est_max_trigger fst].
      pose proof (remaining_bounds (Args.iteration args)
                    (ts_iteration (initial_state W args))). lia.
    + rewrite Hst in Hu. cbn [est_max_trigger fst] in Hu.
      pose proof (remaining_bounds (Args.iteration args)
                    (ts_iteration (initial_state W args))).
      split; [intros Hfu; apply Hs, Hout, Hfu|lia].
Qed.

End Termination.

Lemma training_stops_witness :
  tr_stop_trigger
    (build_trainer Sample.world build_generator build_discriminator
       (fst (fst (datasets_of Sample.args_short)))
       (snd (fst (datasets_of Sample.args_short))) Sample.args_short)
  = {| est_monitor := "validation/main/loss";
       est_max_trigger := (4, "iteration");
       est_check_trigger := (frequency Sample.args_short, "iteration");
       est_patients := PatInf |}
  /\ snd (train_phase Sample.world 5 build_generator
            (fst (fst (datasets_of Sample.args_short)))
            (snd (fst (datasets_of Sample.args_short))) Sample.args_short)
     <> OutOfFuel
  /\ Z.of_nat (List.length
       (updates (fst (train_phase Sample.world 5 build_generator
            (fst (fst (datasets_of Sample.args_short)))
            (snd (fst (datasets_of Sample.args_short))) Sample.args_short))))
     <= 4.
Proof.
  apply (training_stops Sample.world 5 build_generator
           (fst (fst (datasets_of Sample.args_short)))
           (snd (fst (datasets_of Sample.args_short))) Sample.args_short).
  - vm_compute. discriminate.
  - vm_compute. lia.
Defined.

(** C8 as stated fails for a negative [--iteration]: with [--iteration -1]
    the loop performs one update, and no number of updates is at most -1. *)
Lemma training_bound_fails_for_negative_iteration :
  ~ (Z.of_nat (List.length
        (updates (fst (main Sample.world 10 Sample.args_negative))))
     <= Args.iteration Sample.args_negative).
Proof.
  vm_compute. intros H. apply H. reflexivity.
Qed.

(** ** What training leaves on disk *)

Section Artifacts.

Context {N : Numeric}.
Variable W : World N.

Lemma fires_iff_multiple (f it : Z) :
  1 <= f -> negb ((it - 1) / f =? it / f) = (it mod f =? 0).
Proof.
  intros Hf.
  pose proof (Z.div_mod it f). pose proof (Z.div_mod (it - 1) f).
  pose proof (Z.mod_pos_bound it f). pose proof (Z.mod_pos_bound (it - 1) f).
  destruct (Z.eqb_spec ((it - 1) / f) (it / f)) as [E|E];
    destruct (Z.eqb_spec (it mod f) 0) as [E'|E']; cbn; try reflexivity;
    exfalso; nia.
Qed.

Lemma run_extensions_fst (t : Trainer) (cur : Z) :
  Forall (fun e => match effective_trigger e with
                   | Some (p, _) => p <> 0
                   | None => True
                   end) (tr_extensions t) ->
  fst (@run_extensions N t cur) = @extension_events N cur (tr_extensions t).
Proof.
  unfold run_extensions, extension_events.
  generalize (tr_extensions t) as l.
  induction 1 as [|e l He _ IH]; cbn [for_each flat_map]; [reflexivity|].
  rewrite fst_bind, <- IH. f_equal.
  - unfold run_extension, interval_fires.
    destruct (effective_trigger e) as [[p u]|]; [|reflexivity].
    apply Z.eqb_neq in He. rewrite He. cbn [bind ret app fst snd].
    destruct (negb _); reflexivity.
  - unfold run_extension, interval_fires.
    destruct (effective_trigger e) as [[p u]|]; [|reflexivity].
    apply Z.eqb_neq in He. rewrite He. cbn [bind ret app fst snd].
    destruct (negb _); reflexivity.
Qed.

Lemma checkpoint_artifacts (generator : Network) (train valid : Dataset)
    (args : Args.t) (cur : Z) :
  artifacts_written (Args.out args)
    (@extension_events N cur
       (tr_extensions
          (build_trainer W generator build_discriminator train valid args)))
  = if cur mod frequency args =? 0
    then checkpoint_files (Args.out args) cur else [].
Proof.
  pose proof (frequency_ge_1 args) as Hf.
  rewrite <- (fires_iff_multiple _ cur Hf).
  unfold build_trainer, extension_events, artifacts_written, checkpoint_files,
    Py.floordiv.
  destruct (plot_available W);
    cbn [fold_left extend Trainer_new tr_extensions app flat_map
         effective_trigger fst snd];
    destruct (negb ((cur - 1) / frequency args =? cur / frequency args));
    destruct (negb ((cur - 1) / 1 =? cur / 1));
    destruct (negb ((cur - 1) / 100 =? cur / 100));
    reflexivity.
Qed.

Lemma loop_artifacts (generator : Network) (train valid : Dataset)
    (args : Args.t) (fuel : nat) (st : TrainerState) :
  artifacts_written (Args.out args)
    (fst (Trainer_loop W fuel
       (build_trainer W generator build_discriminator train valid args) st))
  = flat_map (fun it => if it mod frequency args =? 0
                        then checkpoint_files (Args.out args) it else [])
      (updates (fst (Trainer_loop W fuel
         (build_trainer W generator build_discriminator train valid args) st))).
Proof.
  revert st. induction fuel as [|fuel IH]; intros st; [reflexivity|].
  cbn [Trainer_loop].
  pose proof (stop_trigger_call_trace W
    (tr_stop_trigger
       (build_trainer W generator build_discriminator train valid args)) st)
    as Htr.
  rewrite fst_bind, Htr. cbn [app].
  destruct (snd (stop_trigger_call W _ st)) as [[b st']|e|]; try reflexivity.
  cbn beta iota. destruct b; [reflexivity|]. cbv zeta.
  pose proof (build_trainer_periods W generator build_discriminator train
                valid args) as Hp.
  pose proof (@run_extensions_returns N
    (build_trainer W generator build_discriminator train valid args)
    (ts_iteration st' + 1) Hp) as [Hs Hu].
  pose proof (run_extensions_fst
    (build_trainer W generator build_discriminator train valid args)
    (ts_iteration st' + 1) Hp) as Hx.
  repeat (rewrite ?fst_bind, ?snd_bind; cbn beta; cbn [emit fst snd app]).
  rewrite Hs. unfold artifacts_written, updates in *.
  cbn [flat_map artifact_of update_of app].
  rewrite !flat_map_app, Hu, Hx.
  cbn [app flat_map].
  change (flat_map (artifact_of (Args.out args))
            (@extension_events N (ts_iteration st' + 1)
               (tr_extensions
                  (build_trainer W generator build_discriminator train valid
                     args))))
    with (artifacts_written (Args.out args)
            (@extension_events N (ts_iteration st' + 1)
               (tr_extensions
                  (build_trainer W generator build_discriminator train valid
                     args)))).
  rewrite checkpoint_artifacts.
  f_equal. apply IH.
Qed.

Lemma train_phase_fst (fuel : nat) (generator : Network)
    (train valid : Dataset) (args : Args.t) :
  fst (train_phase W fuel generator train valid args)
  = app
      [Call (call_train_phase generator train valid);
       Print "# samples:";
       Print ("-- train: " ++ Py.str (len W train));
       Print ("-- valid: " ++ Py.str (len W valid));
       NetworkSaveArgs build_discriminator
         (Py.path_join (Args.out args) "discriminator.json");
       ToDevice (MRegressor {| reg_predictor := generator;
                               reg_activation := torch_tanh;
                               reg_lossfun := l1_loss;
                               reg_accfun := l1_loss |}) (Args.gpu args);
       ToDevice (MNetwork build_discriminator) (Args.gpu args)]
      (app (if (String.length (Args.resume args) =? 0)%nat then []
            else [TrainerLoadStateDict (Args.resume args)])
           (fst (Trainer_loop W fuel
              (build_trainer W generator build_discriminator train valid args)
              (initial_state W args)))).
Proof.
  unfold train_phase, print, initial_state, Trainer_run.
  repeat (rewrite ?fst_bind, ?snd_bind; cbn beta; cbn [emit ret fst snd app]).
  do 7 f_equal.
  destruct (String.length (Args.resume args) =? 0)%nat;
    repeat (rewrite ?fst_bind, ?snd_bind; cbn beta; cbn [emit ret fst snd app]);
    destruct (snd (Trainer_loop _ _ _ _)); now rewrite app_nil_r.
Qed.

End Artifacts.

Example short_run_files :
  artifacts_written "logs" (fst (main Sample.world 10 Sample.args_short))
  = ["logs/model.json"; "logs/norm.json"; "logs/augment.json";
     "logs/discriminator.json";
     "logs/snapshot_iter_00000002.pth"; "logs/generator_iter_00000002.pth";
     "logs/discriminator_iter_00000002.pth";
     "logs/snapshot_iter_00000004.pth"; "logs/generator_iter_00000004.pth";
     "logs/discriminator_iter_00000004.pth"].
Proof. vm_compute. reflexivity. Qed.

(** ** Evaluation *)

Section Evaluation.

Context {N : Numeric}.
Variable W : World N.

Lemma flat_map_singleton {A B : Type} (f : A -> B) (l : list A) :
  flat_map (fun a => [f a]) l = map f l.
Proof.
  induction l as [|a l IH]; simpl; [reflexivity|]. now rewrite IH.
Qed.

Lemma MCSampler_forward_eq (m : MCSampler) (i : Z) (x : ndarray N) :
  MCSampler_forward W m i x
  = (map (fun k => Forward (mcs_predictor m) i k)
       (Py.range (mcs_mc_iteration m)),
     Returned (mc_prediction W m i x, mc_variance W m i x)).
Proof.
  unfold MCSampler_forward, mc_prediction, mc_variance, mc_samples.
  rewrite (for_list_returns _ _
             (fun k => [Forward (mcs_predictor m) i k])
             (fun k => apply_opt (mcs_activation m)
                         (stochastic_forward W (mcs_predictor m) i k x)))
    by reflexivity.
  cbn [bind ret]. now rewrite app_nil_r, flat_map_singleton.
Qed.

Lemma Inferencer_run_eq (inf : Inferencer) :
  Inferencer_run W inf
  = (flat_map (fun i =>
       map (fun k => Forward (mcs_predictor (inf_model inf)) i k)
         (Py.range (mcs_mc_iteration (inf_model inf))))
       (Py.range (len W (it_dataset (inf_iterator inf)))),
     Returned (predictions W (inf_model inf) (it_dataset (inf_iterator inf)),
               variances W (inf_model inf) (it_dataset (inf_iterator inf)))).
Proof.
  unfold Inferencer_run, predictions, variances.
  rewrite (for_list_returns _ _
             (fun i => map (fun k => Forward (mcs_predictor (inf_model inf)) i k)
                         (Py.range (mcs_mc_iteration (inf_model inf))))
             (fun i => (mc_prediction W (inf_model inf) i
                          (get_example W (it_dataset (inf_iterator inf)) i),
                        mc_variance W (inf_model inf) i
                          (get_example W (it_dataset (inf_iterator inf)) i))))
    by (intros; apply MCSampler_forward_eq).
  cbn [bind ret]. now rewrite app_nil_r, !map_map.
Qed.

(** One round of the figure loop, seen by pyplot: whatever the state, the
    round closes the figure it opens and has saved one more figure. *)
Lemma plot_comparison_saves (args : Args.t) (common : string)
    (uncert_clim : @clim_bound N * @clim_bound N)
    (i : Z) (p u : ndarray N) (imf lbf : string)
    (values : list (scalar N) * list (scalar N)) (st : @pyplot N) :
  fold_left event_step
    (fst (plot_comparison W args common uncert_clim
            (CNum (Py.NInt 0), CNum (Py.NInt 1)) (i, (p, u, imf, lbf)) values))
    st
  = {| open_figures := open_figures st;
       saved := (saved st ++
                 [(Py.path_join (Args.out args)
                     ("test/" ++ Py.zero_padded 3 i ++ ".png"),
                   comparison_figure W common uncert_clim p u imf lbf)])%list |}.
Proof.
  destruct values as [acc unc].
  unfold plot_comparison, comparison_figure, rescale. cbv zeta.
  rewrite !last_last.
  repeat (rewrite ?fst_bind, ?snd_bind; cbn beta; cbn [emit ret fst snd app]).
  reflexivity.
Qed.

Lemma plot_comparison_returns (args : Args.t) (common : string)
    (uncert_clim error_clim : @clim_bound N * @clim_bound N)
    (item : Z * (ndarray N * ndarray N * string * string))
    (values : list (scalar N) * list (scalar N)) :
  exists values',
    snd (plot_comparison W args common uncert_clim error_clim item values)
    = Returned values'.
Proof.
  destruct item as [i [[[p u] imf] lbf]], values as [acc unc].
  unfold plot_comparison. cbv zeta.
  repeat (rewrite ?fst_bind, ?snd_bind; cbn beta; cbn [emit ret fst snd app]).
  eexists. reflexivity.
Qed.

Lemma figure_loop (args : Args.t) (common : string)
    (uncert_clim : @clim_bound N * @clim_bound N)
    (items : list (Z * (ndarray N * ndarray N * string * string)))
    (values : list (scalar N) * list (scalar N)) (st : @pyplot N) :
  saved (fold_left event_step
           (fst (for_each items
                   (plot_comparison W args common uncert_clim
                      (CNum (Py.NInt 0), CNum (Py.NInt 1))) values)) st)
  = (saved st ++
     map (fun item : Z * (ndarray N * ndarray N * string * string) =>
            let '(i, (p, u, imf, lbf)) := item in
            (Py.path_join (Args.out args)
               ("test/" ++ Py.zero_padded 3 i ++ ".png"),
             comparison_figure W common uncert_clim p u imf lbf)) items)%list
  /\ exists values',
       snd (for_each items
              (plot_comparison W args common uncert_clim
                 (CNum (Py.NInt 0), CNum (Py.NInt 1))) values)
       = Returned values'.
Proof.
  revert values st.
  induction items as [|[i [[[p u] imf] lbf]] items IH]; intros values st.
  - cbn. rewrite app_nil_r. split; [reflexivity|eexists; reflexivity].
  - cbn [for_each map].
    destruct (plot_comparison_returns args common uncert_clim
                (CNum (Py.NInt 0), CNum (Py.NInt 1))
                (i, (p, u, imf, lbf)) values) as [values' Hv].
    rewrite fst_bind, snd_bind, Hv, fold_left_app, plot_comparison_saves.
    destruct (IH values'
                {| open_figures := open_figures st;
                   saved := (saved st ++
                     [(Py.path_join (Args.out args)
                         ("test/" ++ Py.zero_padded 3 i ++ ".png"),
                       comparison_figure W common uncert_clim p u imf lbf)])%list
                |}) as [IHs IHr].
    split; [|exact IHr].
    rewrite IHs. cbn [saved]. now rewrite <- app_assoc.
Qed.

Lemma fold_left_silent (t : list (@event N)) (st : @pyplot N) :
  Forall (fun e => forall s, event_step s e = s) t ->
  fold_left event_step t st = st.
Proof.
  induction 1 as [|e t He _ IH]; cbn [fold_left]; [reflexivity|].
  now rewrite He.
Qed.

Lemma variances_nonempty (m : MCSampler) (test : Dataset) :
  entries W test <> [] -> variances W m test <> [].
Proof.
  unfold variances, len, Py.range. rewrite Nat2Z.id.
  destruct (entries W test); [congruence|]. intros _. cbn. discriminate.
Qed.

Lemma percentile_nonempty (l : list (ndarray N)) (q : Py.num) :
  l <> [] -> percentile l q = ret (np_percentile N l q).
Proof.
  destruct l; [congruence|reflexivity].
Qed.

Lemma test_phase_fst (generator : Network) (test : Dataset) (args : Args.t)
    (common : string) :
  commonpath W (files_image W test) = Some common ->
  entries W test <> [] ->
  fst (test_phase W generator test args)
  = app
      [Call (call_test_phase generator test);
       Print "# samples:";
       Print ("-- test: " ++ Py.str (len W test));
       LoadStateDict (MNetwork generator)
         (find_latest_snapshot W "generator_iter_{.updater.iteration:08}.pth"
            (Args.out args));
       Print ("Loaded a snapshot: "
              ++ find_latest_snapshot W
                   "generator_iter_{.updater.iteration:08}.pth" (Args.out args));
       ToDevice (MSampler (test_sampler generator args)) (Args.gpu args)]
      (app
         (flat_map (fun i =>
            map (fun k => Forward generator i k)
              (Py.range (Args.mc_iteration args)))
            (Py.range (len W test)))
         (app
            [Makedirs (Py.path_join (Args.out args) "test");
             Plt (rcParams_set "font.size" 14)]
            (fst (for_each
               (Py.enumerate
                  (zip4 (predictions W (test_sampler generator args) test)
                     (variances W (test_sampler generator args) test)
                     (files_image W test) (files_label W test)))
               (plot_comparison W args common
                  (CNum (Py.NInt 0),
                   CScalar (np_percentile N
                     (variances W (test_sampler generator args) test)
                     (Py.NInt 95)))
                  (CNum (Py.NInt 0), CNum (Py.NInt 1)))
               ([], [])))))
  /\ snd (test_phase W generator test args) = Returned tt.
Proof.
  intros Hc Hne. unfold test_phase, print. cbv zeta.
  rewrite Inferencer_run_eq, Hc.
  repeat (rewrite ?fst_bind, ?snd_bind; cbn beta;
          cbn [emit ret fst snd app it_dataset inf_iterator inf_model
               mcs_predictor mcs_mc_iteration test_sampler]).
  rewrite (percentile_nonempty _ _
             (variances_nonempty (test_sampler generator args) test Hne)).
  repeat (rewrite ?fst_bind, ?snd_bind; cbn beta;
          cbn [emit ret fst snd app it_dataset inf_iterator inf_model
               mcs_predictor mcs_mc_iteration test_sampler]).
  destruct (figure_loop args common
              (CNum (Py.NInt 0),
               CScalar (np_percentile N
                 (variances W (test_sampler generator args) test) (Py.NInt 95)))
              (Py.enumerate
                 (zip4 (predictions W (test_sampler generator args) test)
                    (variances W (test_sampler generator args) test)
                    (files_image W test) (files_label W test)))
              ([], []) {| open_figures := []; saved := [] |}) as [_ [v Hv]].
  unfold test_sampler in *. rewrite Hv.
  split; [|reflexivity].
  now rewrite !app_nil_r.
Qed.

Lemma zip4_indexed {A B : Type} (P : Z -> A) (V : Z -> B)
    (E : list (string * string)) (s : nat) :
  zip4 (map P (map Z.of_nat (seq s (List.length E))))
       (map V (map Z.of_nat (seq s (List.length E))))
       (map fst E) (map snd E)
  = map (fun ie : Z * (string * string) =>
           (P (fst ie), V (fst ie), fst (snd ie), snd (snd ie)))
      (combine (map Z.of_nat (seq s (List.length E))) E).
Proof.
  unfold zip4. revert s.
  induction E as [|[a b] E IH]; intros s; cbn; [reflexivity|].
  f_equal. apply IH.
Qed.

Lemma combine_indexed {A B : Type} (h : Z * A -> B) (E : list A) (s : nat) :
  combine (map Z.of_nat (seq s (List.length E)))
    (map h (combine (map Z.of_nat (seq s (List.length E))) E))
  = map (fun ie => (fst ie, h ie))
      (combine (map Z.of_nat (seq s (List.length E))) E).
Proof.
  revert s. induction E as [|a E IH]; intros s; cbn; [reflexivity|].
  f_equal. apply IH.
Qed.

Lemma enumerate_length {A : Type} (E : list A) :
  List.length (Py.enumerate E) = List.length E.
Proof.
  unfold Py.enumerate, Py.range.
  rewrite length_combine, length_map, length_seq, Nat2Z.id. lia.
Qed.

Lemma figure_items (m : MCSampler) (test : Dataset) :
  Py.enumerate
    (zip4 (predictions W m test) (variances W m test)
       (files_image W test) (files_label W test))
  = map (fun ie : Z * (string * string) =>
           (fst ie,
            (mc_prediction W m (fst ie) (get_example W test (fst ie)),
             mc_variance W m (fst ie) (get_example W test (fst ie)),
             fst (snd ie), snd (snd ie))))
      (Py.enumerate (entries W test)).
Proof.
  unfold predictions, variances, files_image, files_label, len.
  unfold Py.range at 1 2. rewrite Nat2Z.id.
  rewrite (zip4_indexed
             (fun i => mc_prediction W m i (get_example W test i))
             (fun i => mc_variance W m i (get_example W test i))).
  unfold Py.enumerate, Py.range.
  rewrite length_map, length_combine, length_map, length_seq, Nat.min_id,
    !Nat2Z.id.
  apply combine_indexed.
Qed.

Lemma entries_empty_or_not (test : Dataset) :
  entries W test = [] \/ entries W test <> [].
Proof.
  destruct (entries W test); [left|right]; congruence.
Qed.

Lemma test_phase_empty (generator : Network) (test : Dataset)
    (args : Args.t) :
  entries W test = [] ->
  fst (test_phase W generator test args)
  = [Call (call_test_phase generator test);
     Print "# samples:";
     Print ("-- test: " ++ Py.str (len W test));
     LoadStateDict (MNetwork generator)
       (find_latest_snapshot W "generator_iter_{.updater.iteration:08}.pth"
          (Args.out args));
     Print ("Loaded a snapshot: "
            ++ find_latest_snapshot W
                 "generator_iter_{.updater.iteration:08}.pth" (Args.out args));
     ToDevice (MSampler (test_sampler generator args)) (Args.gpu args);
     Makedirs (Py.path_join (Args.out args) "test")]
  /\ snd (test_phase W generator test args)
     = Raised (IndexError "index -1 is out of bounds for axis 0 with size 0").
Proof.
  intros He. unfold test_phase, print. cbv zeta.
  rewrite Inferencer_run_eq.
  repeat (rewrite ?fst_bind, ?snd_bind; cbn beta;
          cbn [emit ret fst snd app it_dataset inf_iterator inf_model
               mcs_predictor mcs_mc_iteration test_sampler]).
  unfold variances, len. rewrite He. cbn. split; reflexivity.
Qed.

Lemma test_phase_figures (generator : Network) (test : Dataset)
    (args : Args.t) (common : string) :
  commonpath W (files_image W test) = Some common ->
  figures_saved (fst (test_phase W generator test args))
  = map (fun ie : Z * (string * string) =>
           let '(i, (imf, lbf)) := ie in
           (Py.path_join (Args.out args)
              ("test/" ++ Py.zero_padded 3 i ++ ".png"),
            comparison_figure W common
              (CNum (Py.NInt 0),
               CScalar (np_percentile N
                 (variances W (test_sampler generator args) test)
                 (Py.NInt 95)))
              (mc_prediction W (test_sampler generator args) i
                 (get_example W test i))
              (mc_variance W (test_sampler generator args) i
                 (get_example W test i))
              imf lbf))
      (Py.enumerate (entries W test)).
Proof.
  intros Hc.
  destruct (entries_empty_or_not test) as [He|Hne].
  { destruct (test_phase_empty generator test args He) as [-> _].
    rewrite He. reflexivity. }
  destruct (test_phase_fst generator test args common Hc Hne) as [Hf Hs].
  rewrite Hf. unfold figures_saved.
  rewrite !fold_left_app. cbn [fold_left event_step].
  rewrite (fold_left_silent (flat_map _ _)).
  2:{ apply Forall_flat_map, Forall_forall. intros i _.
      apply Forall_map, Forall_forall. intros k _ st. reflexivity. }
  cbn [fold_left event_step plt_step].
  destruct (figure_loop args common
              (CNum (Py.NInt 0),
               CScalar (np_percentile N
                 (variances W (test_sampler generator args) test)
                 (Py.NInt 95)))
              (Py.enumerate
                 (zip4 (predictions W (test_sampler generator args) test)
                    (variances W (test_sampler generator args) test)
                    (files_image W test) (files_label W test)))
              ([], []) {| open_figures := []; saved := [] |}) as [-> _].
  cbn [saved app]. rewrite figure_items, map_map.
  apply map_ext. intros [i [imf lbf]]. reflexivity.
Qed.




End Evaluation.


(** * Further properties of the driver *)

(** ** File names *)

Section Names.

Lemma append_assoc (a b c : string) : (a ++ b) ++ c = a ++ b ++ c.
Proof.
  induction a as [|x a IH]; cbn; [reflexivity|]. now rewrite IH.
Qed.

Lemma append_length (a b : string) :
  String.length (a ++ b) = (String.length a + String.length b)%nat.
Proof.
  induction a as [|x a IH]; cbn; [reflexivity|]. now rewrite IH.
Qed.

Lemma append_inj_r (a b c : string) : a ++ b = a ++ c -> b = c.
Proof.
  induction a as [|x a IH]; cbn; [auto|]. intros [= H]. auto.
Qed.

Lemma append_inj_l (a b c : string) : a ++ c = b ++ c -> a = b.
Proof.
  revert b. induction a as [|x a IH]; intros [|y b] H.
  - reflexivity.
  - apply (f_equal String.length) in H. cbn in H.
    rewrite append_length in H. lia.
  - apply (f_equal String.length) in H. cbn in H.
    rewrite append_length in H. lia.
  - cbn in H. injection H as -> H. f_equal. auto.
Qed.

(** Leading zeros do not change the number a digit string denotes. *)
Lemma parse_zeros (k : nat) (s : string) (u : Decimal.uint) :
  NilEmpty.uint_of_string s = Some u ->
  exists u', NilEmpty.uint_of_string (Py.zeros k ++ s) = Some u'
             /\ Z.of_uint u' = Z.of_uint u.
Proof.
  intros H. induction k as [|k (u' & Hu & Hz)]; cbn.
  - eauto.
  - rewrite Hu. cbn. eexists. split; [reflexivity|]. exact Hz.
Qed.

(** The digits of a natural number parse back to it. *)
Lemma parse_str (n : Z) :
  0 <= n ->
  exists u, NilEmpty.uint_of_string (Py.str n) = Some u
            /\ Z.of_uint u = n /\ Py.str n <> "".
Proof.
  intros Hn. unfold Py.str.
  pose proof (DecimalZ.of_to n) as Hz.
  destruct n as [|p|p]; [| |lia].
  - exists (Decimal.D0 Decimal.Nil). repeat split; discriminate.
  - cbn in *. set (d := Pos.to_uint p) in *. clearbody d.
    assert (Hd : d <> Decimal.Nil).
    { intros E. rewrite E in Hz. discriminate. }
    exists d. split; [|split; [exact Hz|]].
    + destruct d; try apply NilEmpty.usu. now destruct Hd.
    + destruct d; cbn; discriminate.
Qed.

Lemma int_of_digits (s : string) (u : Decimal.uint) :
  NilEmpty.uint_of_string s = Some u -> s <> "" ->
  NilZero.int_of_string s = Some (Decimal.Pos u).
Proof.
  destruct s as [|a s]; [congruence|]. intros H _.
  unfold NilZero.int_of_string, NilZero.uint_of_string.
  destruct (Ascii.eqb_spec a "-") as [->|_].
  - cbn in H. destruct (NilEmpty.uint_of_string s); discriminate.
  - rewrite H. reflexivity.
Qed.

Lemma zeros_append_nonempty (k : nat) (s : string) :
  s <> "" -> Py.zeros k ++ s <> "".
Proof.
  destruct k; cbn; [auto|discriminate].
Qed.

Lemma py_int_zero_padded (w : nat) (n : Z) :
  py_int (Py.zero_padded w n) = Some n.
Proof.
  unfold py_int, Py.zero_padded.
  destruct (Z.ltb_spec n 0) as [Hneg|Hpos].
  - destruct (parse_str (- n)) as (u & Hu & Hz & Hne); [lia|].
    destruct (parse_zeros (w - 1 - String.length (Py.str (- n))) _ _ Hu)
      as (u' & Hu' & Hz').
    cbn [append NilZero.int_of_string]. cbn [Ascii.eqb Bool.eqb].
    unfold NilZero.uint_of_string.
    pose proof (zeros_append_nonempty
                  (w - 1 - String.length (Py.str (- n))) _ Hne) as Hne'.
    destruct (Py.zeros _ ++ Py.str (- n)) eqn:E; [congruence|].
    rewrite Hu'. cbn. f_equal. lia.
  - destruct (parse_str n Hpos) as (u & Hu & Hz & Hne).
    destruct (parse_zeros (w - String.length (Py.str n)) _ _ Hu)
      as (u' & Hu' & Hz').
    rewrite (int_of_digits _ _ Hu' (zeros_append_nonempty _ _ Hne)).
    cbn. f_equal. lia.
Qed.

Lemma path_join_inj (out a b : string) :
  Py.startswith a "/" = false -> Py.startswith b "/" = false ->
  Py.path_join out a = Py.path_join out b -> a = b.
Proof.
  unfold Py.path_join. intros -> ->.
  destruct ((String.length out =? 0)%nat || Py.endswith_slash out); intros H.
  - exact (append_inj_r _ _ _ H).
  - apply append_inj_r in H. exact (append_inj_r _ _ _ H).
Qed.

Lemma endswith_slash_test (x : string) :
  Py.endswith_slash (x ++ "test") = false.
Proof.
  induction x as [|c x IH]; [reflexivity|].
  cbn [append]. destruct (x ++ "test") eqn:E.
  - destruct x; discriminate.
  - exact IH.
Qed.

(** Joining a directory with [test/name] is joining its [test]
    subdirectory with [name]. *)
Lemma path_join_test_dir (out name : string) :
  Py.startswith name "/" = false ->
  Py.path_join out ("test/" ++ name)
  = Py.path_join (Py.path_join out "test") name.
Proof.
  intros Hn.
  assert (Hd : forall d, Py.path_join (d ++ "test") name
                         = d ++ "test/" ++ name).
  { intros d. unfold Py.path_join. rewrite Hn, endswith_slash_test.
    assert (Hl : (String.length (d ++ "test") =? 0)%nat = false).
    { apply Nat.eqb_neq. rewrite append_length. cbn. lia. }
    rewrite Hl. cbn [orb]. rewrite append_assoc. reflexivity. }
  assert (Hin : Py.path_join out "test"
                = if (String.length out =? 0)%nat || Py.endswith_slash out
                  then out ++ "test" else (out ++ "/") ++ "test").
  { unfold Py.path_join.
    change (Py.startswith "test" "/") with false. cbv iota.
    destruct ((String.length out =? 0)%nat || Py.endswith_slash out);
      [reflexivity|now rewrite append_assoc]. }
  assert (Hout : Py.path_join out ("test/" ++ name)
                 = if (String.length out =? 0)%nat || Py.endswith_slash out
                   then out ++ "test/" ++ name
                   else out ++ "/" ++ "test/" ++ name).
  { unfold Py.path_join.
    change (Py.startswith ("test/" ++ name) "/") with false. reflexivity. }
  rewrite Hin, Hout.
  destruct ((String.length out =? 0)%nat || Py.endswith_slash out);
    rewrite Hd; [reflexivity|now rewrite append_assoc].
Qed.

Lemma digits_not_slash (a : ascii) (s : string) (u : Decimal.uint) :
  NilEmpty.uint_of_string (String a s) = Some u ->
  forall t, Py.startswith (String a s ++ t) "/" = false.
Proof.
  cbn [NilEmpty.uint_of_string]. intros H t.
  destruct (NilEmpty.uint_of_string s) as [d|]; [|discriminate].
  apply uint_of_char_spec in H.
  unfold Py.startswith. cbn [append String.prefix].
  destruct (ascii_dec "/" a) as [<-|]; [|reflexivity].
  intuition discriminate.
Qed.

Lemma zero_padded_not_slash (w : nat) (n : Z) (t : string) :
  Py.startswith (Py.zero_padded w n ++ t) "/" = false.
Proof.
  unfold Py.zero_padded.
  destruct (Z.ltb_spec n 0) as [Hneg|Hpos]; [reflexivity|].
  destruct (parse_str n Hpos) as (u & Hu & _ & Hne).
  destruct (parse_zeros (w - String.length (Py.str n)) _ _ Hu)
    as (u' & Hu' & _).
  pose proof (zeros_append_nonempty (w - String.length (Py.str n)) _ Hne)
    as Hne'.
  destruct (Py.zeros _ ++ Py.str n) as [|a s] eqn:E; [congruence|].
  exact (digits_not_slash a s u' Hu' t).
Qed.

Lemma figure_path_inj (out : string) (i j : Z) :
  Py.path_join out ("test/" ++ Py.zero_padded 3 i ++ ".png")
  = Py.path_join out ("test/" ++ Py.zero_padded 3 j ++ ".png") ->
  i = j.
Proof.
  intros H. apply path_join_inj in H; try reflexivity.
  apply append_inj_r, append_inj_l in H.
  apply (f_equal py_int) in H. rewrite !py_int_zero_padded in H.
  congruence.
Qed.

Lemma format_snapshot_name (it : Z) :
  format_iteration "snapshot_iter_{.updater.iteration:08}.pth" it
  = "snapshot_iter_" ++ Py.zero_padded 8 it ++ ".pth".
Proof. reflexivity. Qed.

Lemma format_generator_name (it : Z) :
  format_iteration "generator_iter_{.updater.iteration:08}.pth" it
  = "generator_iter_" ++ Py.zero_padded 8 it ++ ".pth".
Proof. reflexivity. Qed.

Lemma format_discriminator_name (it : Z) :
  format_iteration "discriminator_iter_{.updater.iteration:08}.pth" it
  = "discriminator_iter_" ++ Py.zero_padded 8 it ++ ".pth".
Proof. reflexivity. Qed.

Lemma NoDup_map_inj {A B : Type} (f : A -> B) (l : list A) :
  (forall x y, f x = f y -> x = y) -> NoDup l -> NoDup (map f l).
Proof.
  intros Hf. induction 1 as [|a l Ha _ IH]; cbn; constructor; [|exact IH].
  intros Hin. apply in_map_iff in Hin as (x & Hx & Hin).
  apply Hf in Hx. now subst.
Qed.

Lemma map_fst_enumerate {A : Type} (l : list A) :
  map fst (Py.enumerate l) = Py.range (Z.of_nat (List.length l)).
Proof.
  unfold Py.enumerate, Py.range. rewrite Nat2Z.id.
  generalize 0%nat as s.
  induction l as [|a l IH]; intros s; cbn; [reflexivity|].
  now rewrite IH.
Qed.

Lemma NoDup_range (n : Z) : NoDup (Py.range n).
Proof.
  unfold Py.range. apply NoDup_map_inj; [apply Nat2Z.inj|apply seq_NoDup].
Qed.

End Names.

Lemma checkpoint_files_names (out : string) :
  (forall it, NoDup (checkpoint_files out it))
  /\ (forall it jt p, In p (checkpoint_files out it) ->
                      In p (checkpoint_files out jt) -> it = jt).
Proof.
  unfold checkpoint_files.
  assert (Hsame : forall pre a b,
            Py.startswith (pre ++ Py.zero_padded 8 a ++ ".pth") "/" = false ->
            Py.startswith (pre ++ Py.zero_padded 8 b ++ ".pth") "/" = false ->
            Py.path_join out (pre ++ Py.zero_padded 8 a ++ ".pth")
            = Py.path_join out (pre ++ Py.zero_padded 8 b ++ ".pth") ->
            a = b).
  { intros pre a b Ha Hb H. apply path_join_inj in H; [|assumption..].
    apply append_inj_r, append_inj_l in H.
    apply (f_equal py_int) in H. rewrite !py_int_zero_padded in H.
    congruence. }
  split.
  - intros it.
    rewrite !format_snapshot_name, !format_generator_name,
      !format_discriminator_name.
    repeat constructor; cbn [In]; intros H;
      repeat match goal with
      | H : _ \/ _ |- _ => destruct H as [H|H]
      | H : False |- _ => destruct H
      | H : Py.path_join _ _ = Py.path_join _ _ |- _ =>
          apply path_join_inj in H; [discriminate|reflexivity..]
      end.
  - intros it jt p.
    rewrite !format_snapshot_name, !format_generator_name,
      !format_discriminator_name.
    cbn [In]. intros Hi Hj.
    repeat match goal with
    | H : _ \/ _ |- _ => destruct H as [H|H]
    | H : False |- _ => destruct H
    end; subst p;
    first [ apply Hsame in Hj; [congruence|reflexivity..]
          | apply path_join_inj in Hj; [discriminate|reflexivity..] ].
Qed.

(** X2: the three snapshot files of a checkpoint have different names, and
    checkpoints at different iterations share no file name: a snapshot
    never overwrites another one. *)
Theorem checkpoint_files_distinct (out : string) (it jt : Z) :
  NoDup (checkpoint_files out it)
  /\ (forall p, In p (checkpoint_files out it) ->
                In p (checkpoint_files out jt) -> it = jt).
Proof.
  destruct (checkpoint_files_names out) as [Hn Hd].
  split; [apply Hn|]. intros p. apply Hd.
Qed.

(** ** The figures of evaluation *)

Example three_digits_7 : three_digits 7 = "007".
Proof. reflexivity. Qed.

Example three_digits_120 : three_digits 120 = "120".
Proof. reflexivity. Qed.

Lemma zeros_length (k : nat) : String.length (Py.zeros k) = k.
Proof.
  induction k as [|k IH]; cbn; [reflexivity|now rewrite IH].
Qed.

Lemma zero_padded_length (w : nat) (n : Z) :
  0 <= n -> (w <= String.length (Py.zero_padded w n))%nat.
Proof.
  intros Hn. unfold Py.zero_padded.
  destruct (Z.ltb_spec n 0) as [Hneg|_]; [lia|].
  rewrite append_length, zeros_length. lia.
Qed.

Lemma zero_padded_three_digits (i : Z) :
  0 <= i < 1000 -> Py.zero_padded 3 i = three_digits i.
Proof.
  intros Hi.
  assert (H : forallb (fun k => String.eqb (Py.zero_padded 3 (Z.of_nat k))
                                  (three_digits (Z.of_nat k)))
                (seq 0 1000) = true) by (vm_compute; reflexivity).
  rewrite forallb_forall in H.
  specialize (H (Z.to_nat i)). rewrite Z2Nat.id in H by lia.
  apply String.eqb_eq, H, in_seq. lia.
Qed.

Lemma nth_error_enumerate {A : Type} (l : list A) (k : nat) (x : A) :
  nth_error l k = Some x ->
  nth_error (Py.enumerate l) k = Some (Z.of_nat k, x).
Proof.
  unfold Py.enumerate, Py.range. rewrite Nat2Z.id.
  assert (H : forall s, nth_error l k = Some x ->
            nth_error (combine (map Z.of_nat (seq s (List.length l))) l) k
            = Some (Z.of_nat (s + k), x)).
  { revert k. induction l as [|a l IH]; intros k s Hk.
    - destruct k; discriminate.
    - destruct k as [|k]; cbn in *.
      + injection Hk as ->. now rewrite Nat.add_0_r.
      + rewrite (IH k (S s) Hk). do 2 f_equal. lia. }
  exact (H 0%nat).
Qed.

Section MoreEvaluation.

Context {N : Numeric}.
Variable W : World N.

(** C4: when the common path of the image files exists, [test_phase]
    writes exactly one figure per sample of its data set, and returns when
    there is a sample. The figure of sample [k], counted from 0, is the
    [k]-th one written; its file is [out/test/<name>.png], where [name]
    reads back as the number [k], has at least three characters and, below
    1000, is the three digits of [k]. The figure has five panels in a row:
    the input image, the predicted label titled with the mean absolute
    error [mean(abs(p - lb))] of the float32 arrays to three decimals, the
    ground-truth label, the predicted variance and the error map. *)
Theorem evaluation_figures (generator : Network) (test : Dataset)
    (args : Args.t) (common : string) :
  commonpath W (files_image W test) = Some common ->
  (entries W test <> [] ->
   snd (test_phase W generator test args) = Returned tt)
  /\ List.length (figures_saved (fst (test_phase W generator test args)))
     = List.length (entries W test)
  /\ forall (k : nat) (imf lbf : string),
       nth_error (entries W test) k = Some (imf, lbf) ->
       exists name : string,
         py_int name = Some (Z.of_nat k)
         /\ (3 <= String.length name)%nat
         /\ (Z.of_nat k < 1000 -> name = three_digits (Z.of_nat k))
         /\ nth_error
              (figures_saved (fst (test_phase W generator test args))) k
            = Some
                (Py.path_join (Args.out args) ("test/" ++ name ++ ".png"),
                 let im := rescale (np_astype_float32 N (load_image W imf)) in
                 let lb := rescale (np_astype_float32 N (load_image W lbf)) in
                 let p :=
                   rescale
                     (np_transpose N
                        (mc_prediction W (test_sampler generator args)
                           (Z.of_nat k) (get_example W test (Z.of_nat k)))
                        [1; 2; 0]) in
                 let u :=
                   mc_variance W (test_sampler generator args)
                     (Z.of_nat k) (get_example W test (Z.of_nat k)) in
                 [ {| ax_position := (1, 5, 1); ax_image := Some im;
                      ax_cmap := None;
                      ax_title := "Input image" ++ nl
                                  ++ relpath W imf common;
                      ax_clim := None |};
                   {| ax_position := (1, 5, 2); ax_image := Some p;
                      ax_cmap := None;
                      ax_title :=
                        "Predicted label" ++ nl ++ "(MAE="
                        ++ fmt_float N 3
                             (np_mean N
                                (np_abs N
                                   (np_sub N (np_astype_float32 N p)
                                      (np_astype_float32 N lb))))
                        ++ ")";
                      ax_clim := None |};
                   {| ax_position := (1, 5, 3); ax_image := Some lb;
                      ax_cmap := None;
                      ax_title := "Ground-truth label";
                      ax_clim := None |};
                   {| ax_position := (1, 5, 4); ax_image := Some u;
                      ax_cmap := Some "jet";
                      ax_title := "Predicted variance" ++ nl ++ "(PV="
                                  ++ fmt_float N 4 (np_mean N u) ++ ")";
                      ax_clim :=
                        Some (CNum (Py.NInt 0),
                              CScalar
                                (np_percentile N
                                   (variances W (test_sampler generator args)
                                      test)
                                   (Py.NInt 95))) |};
                   {| ax_position := (1, 5, 5);
                      ax_image :=
                        Some (np_mean_axis N (np_abs N (np_sub N p lb)) (-1));
                      ax_cmap := Some "jet";
                      ax_title := "Error";
                      ax_clim := Some (CNum (Py.NInt 0), CNum (Py.NInt 1)) |}
                 ]).
Proof.
  intros Hc.
  pose proof (test_phase_figures W generator test args common Hc) as Hfig.
  split; [|split].
  - intros Hne.
    exact (proj2 (test_phase_fst W generator test args common Hc Hne)).
  - now rewrite Hfig, length_map, enumerate_length.
  - intros k imf lbf Hk. exists (Py.zero_padded 3 (Z.of_nat k)).
    split; [apply py_int_zero_padded|].
    split; [apply zero_padded_length; lia|].
    split; [intros Hlt; apply zero_padded_three_digits; lia|].
    rewrite Hfig.
    rewrite (map_nth_error _ k (Py.enumerate (entries W test))
               (nth_error_enumerate _ _ _ Hk)).
    reflexivity.
Qed.

(** X3: the figures of one evaluation go to different files: no figure
    overwrites another, however many samples there are. *)
Theorem figures_never_overwrite (generator : Network) (test : Dataset)
    (args : Args.t) (common : string) :
  commonpath W (files_image W test) = Some common ->
  NoDup (map fst (figures_saved (fst (test_phase W generator test args)))).
Proof.
  intros Hc. rewrite (test_phase_figures W generator test args common Hc).
  rewrite map_map.
  rewrite (map_ext _
             (fun ie : Z * (string * string) =>
                Py.path_join (Args.out args)
                  ("test/" ++ Py.zero_padded 3 (fst ie) ++ ".png")))
    by (intros [i [imf lbf]]; reflexivity).
  rewrite <- (map_map fst
                (fun i => Py.path_join (Args.out args)
                            ("test/" ++ Py.zero_padded 3 i ++ ".png"))).
  rewrite map_fst_enumerate.
  apply NoDup_map_inj; [apply figure_path_inj|apply NoDup_range].
Qed.

(** X4: [test_phase] creates the directory [out/test] before any call to
    pyplot, and every figure it saves is a file of that directory. *)
Theorem figures_inside_test_directory (generator : Network) (test : Dataset)
    (args : Args.t) (common : string) :
  commonpath W (files_image W test) = Some common ->
  (exists before after,
     fst (test_phase W generator test args)
     = app before (Makedirs (Py.path_join (Args.out args) "test") :: after)
     /\ Forall (fun e : @event N =>
                  match e with Plt _ => False | _ => True end) before)
  /\ Forall (fun f : string * list (@axes N) =>
               exists i, fst f
                         = Py.path_join (Py.path_join (Args.out args) "test")
                             (Py.zero_padded 3 i ++ ".png"))
       (figures_saved (fst (test_phase W generator test args))).
Proof.
  intros Hc. split.
  - destruct (entries_empty_or_not W test) as [He|Hne].
    { destruct (test_phase_empty W generator test args He) as [-> _].
      eexists [_; _; _; _; _; _], []. split; [reflexivity|].
      repeat constructor. }
    destruct (test_phase_fst W generator test args common Hc Hne) as [-> _].
    eexists _, _. split.
    + rewrite app_assoc. reflexivity.
    + apply Forall_app. split; [repeat constructor|].
      apply Forall_flat_map, Forall_forall. intros i _.
      apply Forall_map, Forall_forall. intros k _. exact I.
  - rewrite (test_phase_figures W generator test args common Hc).
    apply Forall_map, Forall_forall. intros [i [imf lbf]] _.
    exists i. cbn [fst]. apply path_join_test_dir, zero_padded_not_slash.
Qed.

End MoreEvaluation.

Lemma evaluation_figures_witness :
  snd (test_phase Sample.world build_generator
         (snd (fst (datasets_of Sample.args_valid))) Sample.args_valid)
  = Returned tt
  /\ map fst
       (figures_saved
          (fst (test_phase Sample.world build_generator
                  (snd (fst (datasets_of Sample.args_valid)))
                  Sample.args_valid)))
     = ["logs/test/000.png"; "logs/test/001.png"].
Proof.
  destruct (evaluation_figures Sample.world build_generator
              (snd (fst (datasets_of Sample.args_valid))) Sample.args_valid
              "d" eq_refl) as (Hs & Hl & Hk).
  split; [apply Hs; discriminate|].
  destruct (Hk 0%nat _ _ eq_refl) as (n0 & _ & _ & E0 & H0).
  destruct (Hk 1%nat _ _ eq_refl) as (n1 & _ & _ & E1 & H1).
  rewrite (E0 eq_refl) in H0. rewrite (E1 eq_refl) in H1.
  destruct (figures_saved _) as [|a [|b [|c l]]]; try discriminate Hl.
  cbn in H0, H1. injection H0 as ->. injection H1 as ->. reflexivity.
Defined.

Example evaluation_paths :
  map fst (figures_saved (fst (main Sample.world 10 Sample.args_valid)))
  = ["logs/test/000.png"; "logs/test/001.png"].
Proof. vm_compute. reflexivity. Qed.

(** In the sample world, where arrays are the expressions that compute
    them: the title of the second panel of each figure. *)
Example evaluation_mae_titles :
  map (fun f : string * list (@axes Sample.text) =>
         nth 1 (map ax_title (snd f)) "")
    (figures_saved (fst (main Sample.world 10 Sample.args_valid)))
  = ["Predicted label" ++ nl
     ++ "(MAE=fmt(3, mean(abs(sub(f32(div(add(rev(transpose(smean(tanh(net0_0(x(0), ));tanh(net0_1(x(0), ))), 1,2,0)), <float>), <float>)), f32(div(add(rev(f32(load(d/train/4_b.mha))), <float>), <float>)))))))";
     "Predicted label" ++ nl
     ++ "(MAE=fmt(3, mean(abs(sub(f32(div(add(rev(transpose(smean(tanh(net1_0(x(1), ));tanh(net1_1(x(1), ))), 1,2,0)), <float>), <float>)), f32(div(add(rev(f32(load(d/train/5_b.mha))), <float>), <float>)))))))"].
Proof. vm_compute. reflexivity. Qed.

Lemma figures_never_overwrite_witness :
  NoDup (map fst (figures_saved
    (fst (test_phase Sample.world build_generator
            (snd (fst (datasets_of Sample.args_valid))) Sample.args_valid)))).
Proof.
  apply (figures_never_overwrite Sample.world build_generator
           (snd (fst (datasets_of Sample.args_valid))) Sample.args_valid "d").
  reflexivity.
Defined.

Lemma figures_inside_test_directory_witness :
  Forall (fun f : string * list (@axes Sample.text) =>
            exists i, fst f
                      = Py.path_join (Py.path_join "logs" "test")
                          (Py.zero_padded 3 i ++ ".png"))
    (figures_saved
       (fst (test_phase Sample.world build_generator
               (snd (fst (datasets_of Sample.args_valid)))
               Sample.args_valid))).
Proof.
  apply (figures_inside_test_directory Sample.world build_generator
           (snd (fst (datasets_of Sample.args_valid))) Sample.args_valid "d").
  reflexivity.
Defined.

(** ** Failure and clean-up of evaluation, and what the modes leave alone *)

Section Edges.

Context {N : Numeric}.
Variable W : World N.


(** X5: on a data set without files [test_phase] ends in the IndexError of
    [np.percentile]: it has loaded the latest generator snapshot and
    created [out/test], it runs no pass of the generator and calls pyplot
    not once, so it writes no figure. *)
Theorem evaluation_of_empty_data_set (generator : Network) (test : Dataset)
    (args : Args.t) :
  entries W test = [] ->
  (exists msg,
     snd (test_phase W generator test args) = Raised (IndexError msg))
  /\ (exists before,
        fst (test_phase W generator test args)
        = app before [Makedirs (Py.path_join (Args.out args) "test")]
        /\ In (LoadStateDict (MNetwork generator)
                 (find_latest_snapshot W
                    "generator_iter_{.updater.iteration:08}.pth"
                    (Args.out args))) before)
  /\ forwards (fst (test_phase W generator test args)) = []
  /\ Forall (fun e : @event N =>
               match e with Plt _ => False | _ => True end)
       (fst (test_phase W generator test args))
  /\ figures_saved (fst (test_phase W generator test args)) = [].
Proof.
  intros He.
  destruct (test_phase_empty W generator test args He) as [Hf Hs].
  split; [eexists; exact Hs|]. rewrite Hf. split; [|split; [|split]].
  - eexists [_; _; _; _; _; _]. split; [reflexivity|]. cbn. auto 10.
  - reflexivity.
  - repeat constructor.
  - reflexivity.
Qed.




End Edges.

Lemma evaluation_of_empty_data_set_witness :
  (exists msg,
     snd (test_phase EmptySample.world build_generator
            (snd (fst (datasets_of Sample.args_valid))) Sample.args_valid)
     = Raised (IndexError msg))
  /\ figures_saved
       (fst (test_phase EmptySample.world build_generator
               (snd (fst (datasets_of Sample.args_valid)))
               Sample.args_valid)) = [].
Proof.
  destruct (evaluation_of_empty_data_set EmptySample.world build_generator
              (snd (fst (datasets_of Sample.args_valid))) Sample.args_valid
              eq_refl) as (Hs & _ & _ & _ & Hf).
  split; [exact Hs|exact Hf].
Defined.

Section Modes.

Context {N : Numeric}.
Variable W : World N.

(** X7: the modes keep apart. With [--test_on_test], [main] does its
    set-up (it prints, creates the output directory, fixes the seed and
    freezes layers when asked to) and nothing else. Evaluation on the
    validation set saves no arguments and no JSON summary, loads no
    trainer state, performs no update and invokes no extension of a
    trainer. In training the driver itself makes no call to pyplot, runs
    no pass of the Monte-Carlo sampler and loads no generator snapshot:
    what is plotted in training is plotted by extensions of the trainer. *)
Theorem modes_do_not_mix (fuel : nat) (args : Args.t) :
  match mode_of args with
  | ModeTestOnTest =>
      fst (main W fuel args) = main_prefix args
      /\ In (Makedirs (Args.out args)) (fst (main W fuel args))
  | ModeTestOnValid =>
      Forall (fun e : @event N =>
                match e with
                | SaveArgs _ _ | NetworkSaveArgs _ _ | NormalizerSummary _ _
                | AugmentorSummary _ _ | TrainerLoadStateDict _ | Update _
                | Invoke _ _ => False
                | _ => True
                end) (fst (main W fuel args))
  | ModeTrain =>
      Forall (fun e : @event N =>
                match e with
                | Plt _ | Forward _ _ _ | LoadStateDict _ _ => False
                | _ => True
                end) (fst (main W fuel args))
  end.
Proof.
  destruct (main_trace W fuel args) as [-> _].
  unfold mode_of, main_branch.
  destruct (Args.test_on_test args); [|destruct (Args.test_on_valid args)];
    cbv zeta.
  - cbn [bind raise fst snd]. rewrite app_nil_r.
    split; [reflexivity|].
    unfold main_prefix. apply in_or_app. left. cbn. auto 10.
  - apply Forall_app. split.
    + unfold main_prefix. destruct (Args.freeze_upconv args);
        repeat constructor.
    + destruct (test_phase_trace W build_generator
                  (snd (fst (datasets_of args))) args) as (rest & -> & Hr).
      constructor; [exact I|].
      eapply Forall_impl; [|exact Hr].
      intros [] He; try exact I; destruct He.
  - apply Forall_app. split.
    + unfold main_prefix. destruct (Args.freeze_upconv args);
        repeat constructor.
    + repeat (rewrite fst_bind; cbn [emit fst snd app]).
      destruct (train_phase_trace W fuel build_generator
                  (fst (fst (datasets_of args)))
                  (snd (fst (datasets_of args))) args)
        as (m1 & m2 & rest & -> & Hr).
      repeat (constructor; [exact I|]).
      cbn [app]. repeat (constructor; [exact I|]).
      eapply Forall_impl; [|exact Hr].
      intros [] He; try exact I; destruct He.
Qed.

(** X8: evaluation looks for the files training writes.  The pattern and
    the directory that [test_phase] hands to [find_latest_snapshot] are
    those of the generator snapshots that [train_phase] registers, taken
    at every checkpoint, and it loads what the search returns into the
    generator. *)
Theorem evaluation_finds_training_snapshots (generator discriminator : Network)
    (train valid test : Dataset) (args : Args.t) :
  exists pattern,
    In (snapshot_object (MNetwork generator) pattern,
        Some (frequency args, "iteration"))
       (tr_extensions
          (build_trainer W generator discriminator train valid args))
    /\ tr_out (build_trainer W generator discriminator train valid args)
       = Args.out args
    /\ In (LoadStateDict (MNetwork generator)
             (find_latest_snapshot W pattern (Args.out args)))
          (fst (test_phase W generator test args))
    /\ forall it,
         In (Py.path_join (Args.out args) (format_iteration pattern it))
            (checkpoint_files (Args.out args) it).
Proof.
  exists "generator_iter_{.updater.iteration:08}.pth".
  split; [|split; [|split]].
  - unfold build_trainer.
    destruct (plot_available W);
      cbn [fold_left extend Trainer_new tr_extensions app In]; intuition.
  - unfold build_trainer. destruct (plot_available W); reflexivity.
  - unfold test_phase, print.
    do 4 (rewrite fst_bind; cbn [emit fst snd app]).
    do 3 right. left. reflexivity.
  - intros it. unfold checkpoint_files. right. left. reflexivity.
Qed.

End Modes.

(** ** The iterations of a training run *)

Section Iterations.

Context {N : Numeric}.
Variable W : World N.

Lemma run_extensions_no_update (t : Trainer) (cur : Z) :
  updates (fst (@run_extensions N t cur)) = []
  /\ trainer_loads (fst (@run_extensions N t cur)) = [].
Proof.
  split; apply flat_map_silent;
    unfold run_extensions, run_extension, interval_fires; trace_forall.
Qed.

Lemma stop_trigger_call_iteration (t : EarlyStoppingTrigger)
    (st st' : TrainerState) (b : bool) :
  snd (stop_trigger_call W t st) = Returned (b, st') ->
  ts_iteration st' = ts_iteration st.
Proof.
  unfold stop_trigger_call, interval_fires.
  destruct (fst (est_max_trigger t) =? 0); [discriminate|].
  cbn [bind ret app fst snd].
  destruct (negb _); [intros [= _ <-]; reflexivity|].
  destruct (fst (est_check_trigger t) =? 0); [discriminate|].
  cbn [bind ret app fst snd].
  destruct (negb (negb _)); intros [= _ <-]; reflexivity.
Qed.

Lemma shift_consecutive (a : Z) (m : nat) :
  map (fun k => a + 1 + Z.of_nat k) (seq 1 m)
  = map (fun k => a + Z.of_nat k) (seq 2 m).
Proof.
  rewrite <- (seq_shift m 1), map_map. apply map_ext. intros k. lia.
Qed.

Lemma Trainer_loop_updates (fuel : nat) (t : Trainer) (st : TrainerState) :
  (exists m,
     updates (fst (Trainer_loop W fuel t st))
     = map (fun k => ts_iteration st + Z.of_nat k) (seq 1 m))
  /\ trainer_loads (fst (Trainer_loop W fuel t st)) = [].
Proof.
  revert st. induction fuel as [|fuel IH]; intros st.
  - split; [exists 0%nat|]; reflexivity.
  - cbn [Trainer_loop].
    rewrite fst_bind, stop_trigger_call_trace. cbn [app].
    destruct (snd (stop_trigger_call W (tr_stop_trigger t) st))
      as [[b st']|e|] eqn:Hs;
      try (split; [exists 0%nat|]; reflexivity).
    apply stop_trigger_call_iteration in Hs.
    cbn beta iota. destruct b; [split; [exists 0%nat|]; reflexivity|].
    cbv zeta.
    destruct (run_extensions_no_update t (ts_iteration st' + 1)) as [Hu Hl].
    repeat (rewrite ?fst_bind, ?snd_bind; cbn beta; cbn [emit fst snd app]).
    unfold updates, trainer_loads in *.
    cbn [flat_map update_of app]. rewrite !flat_map_app, Hu, Hl.
    cbn [app]. rewrite Hs.
    destruct (snd (run_extensions t (ts_iteration st + 1))).
    + destruct (IH {| ts_iteration := ts_iteration st + 1;
                      ts_count := ts_count st' |}) as [[m Hm] Hl'].
      cbn [ts_iteration] in Hm. split; [|exact Hl'].
      exists (S m). rewrite Hm. cbn [seq map].
      rewrite shift_consecutive. reflexivity.
    + split; [exists 1%nat|]; reflexivity.
    + split; [exists 1%nat|]; reflexivity.
Qed.


End Iterations.

Section FullRun.

Context {N : Numeric}.
Variable W : World N.







End FullRun.


(** ** The files of a training run *)



Section TrainingFiles.

Context {N : Numeric}.
Variable W : World N.





End TrainingFiles.



(** ** The paths of the summaries and snapshots of a training run *)

Section Overwriting.

Context {N : Numeric}.
Variable W : World N.

Lemma NoDup_flat_map {A B : Type} (f : A -> list B) (l : list A) :
  NoDup l -> (forall x, NoDup (f x)) ->
  (forall x y p, In p (f x) -> In p (f y) -> x = y) ->
  NoDup (flat_map f l).
Proof.
  intros Hl Hf Hd. induction Hl as [|a l Ha _ IH]; cbn; [constructor|].
  apply NoDup_app; [apply Hf|exact IH|].
  intros p Hp Hq. apply in_flat_map in Hq as (y & Hy & Hq).
  rewrite (Hd a y p Hp Hq) in Ha. contradiction.
Qed.

Lemma training_trace_files (fuel : nat) (args : Args.t) :
  Args.test_on_test args = false ->
  Args.test_on_valid args = false ->
  exists m,
    artifacts_written (Args.out args) (fst (main W fuel args))
    = app
        [Py.path_join (Args.out args) "model.json";
         Py.path_join (Args.out args) "norm.json";
         Py.path_join (Args.out args) "augment.json";
         Py.path_join (Args.out args) "discriminator.json"]
        (flat_map (fun it => if it mod frequency args =? 0
                             then checkpoint_files (Args.out args) it
                             else [])
           (map (fun k => ts_iteration (initial_state W args) + Z.of_nat k)
              (seq 1 m))).
Proof.
  intros Ht Hv. destruct (main_trace W fuel args) as [-> _].
  unfold main_branch. rewrite Ht, Hv. cbv zeta.
  repeat (rewrite ?fst_bind, ?snd_bind; cbn beta; cbn [emit ret fst snd app]).
  rewrite train_phase_fst.
  destruct (Trainer_loop_updates W fuel
              (build_trainer W build_generator build_discriminator
                 (fst (fst (datasets_of args)))
                 (snd (fst (datasets_of args))) args)
              (initial_state W args)) as [[m Hm] _].
  exists m. rewrite <- Hm, <- loop_artifacts.
  unfold artifacts_written. rewrite !flat_map_app.
  assert (Hp : flat_map (artifact_of (Args.out args)) (@main_prefix N args)
               = []).
  { unfold main_prefix. destruct (Args.freeze_upconv args); reflexivity. }
  rewrite Hp. cbn [flat_map artifact_of app].
  rewrite !flat_map_app.
  destruct (String.length (Args.resume args) =? 0)%nat; reflexivity.
Qed.

(** X11: the four JSON summaries and the snapshot files that a training
    run writes have pairwise different paths. (The plots and the log,
    which the trainer's extensions rewrite at every checkpoint, are not
    among these files.) *)
Theorem training_files_distinct (fuel : nat) (args : Args.t) :
  Args.test_on_test args = false ->
  Args.test_on_valid args = false ->
  NoDup (artifacts_written (Args.out args) (fst (main W fuel args))).
Proof.
  intros Ht Hv.
  destruct (training_trace_files fuel args Ht Hv) as [m ->].
  apply NoDup_app.
  - repeat constructor; cbn [In]; intros H;
      repeat match goal with
      | H : _ \/ _ |- _ => destruct H as [H|H]
      | H : False |- _ => destruct H
      | H : Py.path_join _ _ = Py.path_join _ _ |- _ =>
          apply path_join_inj in H; [discriminate|reflexivity..]
      end.
  - apply NoDup_flat_map.
    + apply NoDup_map_inj; [intros x y; lia|apply seq_NoDup].
    + intros it. destruct (it mod frequency args =? 0);
        [apply (checkpoint_files_names (Args.out args))|constructor].
    + intros it jt p.
      destruct (it mod frequency args =? 0); [|intros []].
      destruct (jt mod frequency args =? 0); [|intros _ []].
      apply (checkpoint_files_names (Args.out args)).
  - intros p Hj Hs. apply in_flat_map in Hs as (it & _ & Hs).
    destruct (it mod frequency args =? 0); [|destruct Hs].
    unfold checkpoint_files in Hs.
    rewrite format_snapshot_name, format_generator_name,
      format_discriminator_name in Hs.
    cbn [In] in Hj, Hs.
    repeat match goal with
    | H : _ \/ _ |- _ => destruct H as [H|H]
    | H : False |- _ => destruct H
    end; subst p;
    apply path_join_inj in Hs; first [discriminate|reflexivity].
Qed.

End Overwriting.

Lemma training_files_distinct_witness :
  NoDup (artifacts_written "logs"
           (fst (main Sample.world 10 Sample.args_short))).
Proof.
  apply (training_files_distinct Sample.world 10 Sample.args_short);
    reflexivity.
Defined.
